(** * Checkout price resolvers, e-mail change confirmation and transaction
    mutation exports of the GraphQL layer

  A shallow embedding of
  - [saleor/graphql/checkout/types.py] (module [CheckoutTypes]),
  - [saleor/graphql/payment/mutations/transaction/__init__.py]
    (module [TransactionMutations]),
  - the [confirmEmailChange] mutation exercised by
    [saleor/graphql/account/tests/mutations/account/test_confirm_email_change.py]
    (module [ConfirmEmailChange]).

  Python exceptions are explicit: every computation that can raise lives
  in [result].  A promise is modelled by the outcome it settles to. *)

From Stdlib Require Import ZArith Lia.
From stdpp Require Import base option list gmap strings.

Local Open Scope string_scope.
Local Open Scope Z_scope.

(** ** Exceptions and promises *)

Inductive exn : Type :=
| ValueError
| AttributeError
| CircularSubscriptionSyncEvent.

Inductive result (A : Type) : Type :=
| Ok (a : A)
| Raise (e : exn).

Arguments Ok {A} a.
Arguments Raise {A} e.

#[global] Instance result_ret : MRet result := fun _ a => Ok a.
#[global] Instance result_bind : MBind result := fun _ _ f m =>
  match m with
  | Ok a => f a
  | Raise e => Raise e
  end.

(** A promise settles either to a value or to the exception its callback
    raised; [then_] is [Promise.then] for a callback that may raise. *)
Definition Promise : Type -> Type := result.

Definition then_ {A B} (p : Promise A) (f : A -> Promise B) : Promise B :=
  p ≫= f.

(** ** Money and taxed money (the [prices] package)

    Amounts are decimals; the resolvers only add, subtract and compare
    them, so an amount is the integer number of the smallest unit kept. *)
Module Prices.

Record Money : Type := mkMoney { amount : Z; currency : string }.

Record TaxedMoney : Type := mkTaxedMoney { net : Money; gross : Money }.

(** [Money.__lt__]: comparing two currencies raises [ValueError]. *)
Definition Money_lt (a b : Money) : result bool :=
  if String.eqb (currency a) (currency b)
  then Ok (amount a <? amount b)
  else Raise ValueError.

(** [Money.__add__] *)
Definition Money_add (a b : Money) : result Money :=
  if String.eqb (currency b) (currency a)
  then Ok (mkMoney (amount a + amount b) (currency a))
  else Raise ValueError.

(** [Money.__sub__] *)
Definition Money_sub (a b : Money) : result Money :=
  if String.eqb (currency b) (currency a)
  then Ok (mkMoney (amount a - amount b) (currency a))
  else Raise ValueError.

(** [TaxedMoney.__lt__] compares the gross parts. *)
Definition TaxedMoney_lt (a b : TaxedMoney) : result bool :=
  Money_lt (gross a) (gross b).

(** The builtin [max(a, b)]: [b] replaces [a] only when [b > a], which
    for taxed money is answered by the reflected [a < b]. *)
Definition max (a b : TaxedMoney) : result TaxedMoney :=
  lt ← TaxedMoney_lt a b;
  mret (if lt : bool then b else a).

(** Modelled from the spec: [saleor.core.taxes.zero_money], the zero amount
    in a currency. *)
Definition zero_money (c : string) : Money := mkMoney 0 c.

(** Modelled from the spec: [saleor.core.taxes.zero_taxed_money], the zero
    taxed amount in a currency. *)
Definition zero_taxed_money (c : string) : TaxedMoney :=
  mkTaxedMoney (zero_money c) (zero_money c).

(** The clamp [max(t, zero_taxed_money(c))] in closed form. *)
Definition clamp (t : TaxedMoney) (c : string) : TaxedMoney :=
  if amount (gross t) <? 0 then zero_taxed_money c else t.

End Prices.


(** ** [saleor/graphql/checkout/types.py] *)
Module CheckoutTypes.
Import Prices.

(** *** The objects the resolvers read

    Universally unique identifiers are kept as their integer value;
    address keys are the integers of the address table. *)

Record Address : Type := mkAddress { address_pk : Z; country : string }.

Record Channel : Type := mkChannel { channel_pk : Z; slug : string }.

Record ShippingMethodData : Type :=
  mkShippingMethodData { shipping_method_id : Z; shipping_method_name : string }.

Record PaymentGatewayData : Type :=
  mkPaymentGatewayData { gateway_id : string; gateway_currencies : list string }.

Module models.

(** [models.Checkout]; its primary key is its token. *)
Record Checkout : Type := mkCheckout {
  token : Z;
  currency : string;
  shipping_address_id : option Z;
  billing_address_id : option Z;
  channel : Channel;
  authorize_status : string;
  charge_status : string
}.

Definition pk_of_checkout (root : Checkout) : Z := token root.

(** [models.CheckoutLine] *)
Record CheckoutLine : Type := mkCheckoutLine {
  pk : Z;
  checkout_id : Z;
  variant_id : Z;
  quantity : Z
}.

End models.

Record CheckoutLineInfo : Type := mkCheckoutLineInfo {
  line : models.CheckoutLine;
  product_id : Z
}.

(** [CheckoutInfo]; the two shipping method lists are lazy attributes
    whose evaluation asks the shipping plugins, hence may raise. *)
Record CheckoutInfo : Type := mkCheckoutInfo {
  checkout : models.Checkout;
  info_channel : Channel;
  all_shipping_methods : result (list ShippingMethodData);
  valid_shipping_methods : result (list ShippingMethodData)
}.

Record TransactionItem : Type := mkTransactionItem {
  amount_charged : Money;
  amount_charge_pending : Money
}.

(** [PluginsManager], with the one method the resolvers call on it. *)
Record PluginsManager : Type := mkPluginsManager {
  list_payment_gateways :
    string -> models.Checkout -> string -> result (list PaymentGatewayData)
}.

(** [info.context]: whether the request serves a synchronous event, and
    what each batched loader holds for a key. *)
Record SaleorContext : Type := mkSaleorContext {
  sync_event : bool;
  AddressByIdLoader : Z -> option Address;
  CheckoutByTokenLoader : Z -> option models.Checkout;
  CheckoutInfoByCheckoutTokenLoader : Z -> CheckoutInfo;
  CheckoutLinesInfoByCheckoutTokenLoader : Z -> list CheckoutLineInfo;
  TransactionItemsByCheckoutIDLoader : Z -> list TransactionItem;
  plugin_manager : PluginsManager
}.

Record ResolveInfo : Type := mkResolveInfo { context : SaleorContext }.

(** [Loader(info.context).load(key)]: a promise of what the loader holds. *)
Definition load {K V} (loader : K -> V) (key : K) : Promise V :=
  Ok (loader key).

Definition get_plugin_manager_promise (ctx : SaleorContext)
  : Promise PluginsManager :=
  Ok (plugin_manager ctx).

(** *** The calculation engine ([saleor.checkout.calculations] and
    [saleor.checkout.base_calculations]), taken as given.
    [fetch_checkout_data] updates [checkout_info.checkout] in place; the
    updated object is its result here. *)
Record Calculations : Type := mkCalculations {
  calculate_checkout_total_with_gift_cards :
    PluginsManager -> CheckoutInfo -> list CheckoutLineInfo ->
    option Address -> result TaxedMoney;
  checkout_subtotal :
    PluginsManager -> CheckoutInfo -> list CheckoutLineInfo ->
    option Address -> result TaxedMoney;
  checkout_shipping_price :
    PluginsManager -> CheckoutInfo -> list CheckoutLineInfo ->
    option Address -> result TaxedMoney;
  checkout_line_unit_price :
    PluginsManager -> CheckoutInfo -> list CheckoutLineInfo ->
    CheckoutLineInfo -> result TaxedMoney;
  checkout_line_total :
    PluginsManager -> CheckoutInfo -> list CheckoutLineInfo ->
    CheckoutLineInfo -> result TaxedMoney;
  fetch_checkout_data :
    CheckoutInfo -> PluginsManager -> list CheckoutLineInfo ->
    option Address -> list TransactionItem -> result CheckoutInfo;
  calculate_undiscounted_base_line_unit_price :
    CheckoutLineInfo -> Channel -> result Money;
  calculate_undiscounted_base_line_total_price :
    CheckoutLineInfo -> Channel -> result Money
}.

(** *** Decorators *)

(** Modelled from the spec: [prevent_sync_event_circular_query] of
    [saleor/graphql/checkout/utils.py], the circular-query prevention
    wrapper: inside a synchronous event the wrapped resolver is not run
    and the field fails. *)
Definition prevent_sync_event_circular_query {R A}
    (func : R -> ResolveInfo -> Promise A) : R -> ResolveInfo -> Promise A :=
  fun root info =>
    if sync_event (context info)
    then Raise CircularSubscriptionSyncEvent
    else func root info.

(** Modelled from the spec: [traced_resolver] of
    [saleor/graphql/core/tracing.py] only opens a tracing span around the
    resolver. *)
Definition traced_resolver {R A}
    (func : R -> ResolveInfo -> Promise A) : R -> ResolveInfo -> Promise A :=
  func.

(** Modelled from the spec: [plugin_manager_promise_callback] of
    [saleor/graphql/plugins/dataloaders.py] passes the loaded plugin
    manager as the resolver's third argument. *)
Definition plugin_manager_promise_callback {R A}
    (func : R -> ResolveInfo -> PluginsManager -> Promise A)
  : R -> ResolveInfo -> Promise A :=
  fun root info =>
    then_ (get_plugin_manager_promise (context info)) (func root info).

(** Modelled from the spec: [unwrap_lazy] of
    [saleor/core/utils/lazyobjects.py] forces a lazy attribute. *)
Definition unwrap_lazy {A} (lazy : result A) : result A := lazy.

(** *** Python values *)

(** Truth value of an optional integer key: [None] and [0] are false. *)
Definition truthy (x : option Z) : bool :=
  match x with
  | Some n => negb (n =? 0)
  | None => false
  end.

(** [x or y] *)
Definition py_or (x y : option Z) : option Z := if truthy x then x else y.

(** [sum(xs)]: the accumulator starts at [0] and runs left to right. *)
Definition py_sum (xs : list Z) : Z := fold_left Z.add xs 0.

(** [checkout.token] on a loaded checkout; on [None] the attribute access
    raises. *)
Definition token_of (checkout : option models.Checkout) : result Z :=
  match checkout with
  | Some c => Ok (models.token c)
  | None => Raise AttributeError
  end.

(** *** [get_dataloaders_for_fetching_checkout_data] *)

Definition Dataloaders : Type :=
  (option (Promise (option Address)) * Promise (list CheckoutLineInfo)
   * Promise CheckoutInfo * Promise PluginsManager)%type.

Definition get_dataloaders_for_fetching_checkout_data
    (root : models.Checkout) (info : ResolveInfo) : Dataloaders :=
  let address_id :=
    py_or (models.shipping_address_id root) (models.billing_address_id root) in
  let address :=
    match address_id with
    | Some key =>
        if truthy address_id
        then Some (load (AddressByIdLoader (context info)) key)
        else None
    | None => None
    end in
  let lines :=
    load (CheckoutLinesInfoByCheckoutTokenLoader (context info))
         (models.token root) in
  let checkout_info :=
    load (CheckoutInfoByCheckoutTokenLoader (context info))
         (models.token root) in
  let manager := get_plugin_manager_promise (context info) in
  (address, lines, checkout_info, manager).

(** [Promise.all(list(dataloaders))]: an entry that is not a promise (the
    [None] address) is passed on as it is. *)
Definition Promise_all_dataloaders (dataloaders : Dataloaders)
  : Promise (option Address * list CheckoutLineInfo * CheckoutInfo
             * PluginsManager) :=
  let '(address, lines, checkout_info, manager) := dataloaders in
  a ← (match address with Some p => p | None => Ok None end);
  l ← lines;
  c ← checkout_info;
  m ← manager;
  mret (a, l, c, m).

(** The same after [dataloaders.append(transactions)]. *)
Definition Promise_all_dataloaders_with (dataloaders : Dataloaders)
    (transactions : Promise (list TransactionItem))
  : Promise (option Address * list CheckoutLineInfo * CheckoutInfo
             * PluginsManager * list TransactionItem) :=
  d ← Promise_all_dataloaders dataloaders;
  t ← transactions;
  mret (d, t).

(** [Promise.all([p, q])] *)
Definition Promise_all2 {A B} (p : Promise A) (q : Promise B)
  : Promise (A * B) :=
  a ← p; b ← q; mret (a, b).

(** A declared GraphQL field and whether it is non-null. *)
Record Field : Type := mkField { field_name : string; required : bool }.

Definition declared_required (fields : list Field) (name : string) : bool :=
  match find (fun f => String.eqb (field_name f) name) fields with
  | Some f => required f
  | None => false
  end.

(** *** [class CheckoutLine] *)
Module CheckoutLine.
Section Resolvers.
Variable calculations : Calculations.

(** The fields of the class that are declared, in order. *)
Definition fields : list Field :=
  [ mkField "id" true;
    mkField "variant" true;
    mkField "quantity" true;
    mkField "unit_price" true;
    mkField "undiscounted_unit_price" true;
    mkField "total_price" true;
    mkField "undiscounted_total_price" true;
    mkField "requires_shipping" true ].

(** The loop of the four price resolvers,
    [for line_info in lines: if line_info.line.pk == root.pk: return call]
    followed by [return None], with [call] what the resolver computes for
    the line it found. *)
Fixpoint for_line_info {A} (root : models.CheckoutLine)
    (call : CheckoutLineInfo -> result A) (lines : list CheckoutLineInfo)
  : result (option A) :=
  match lines with
  | [] => Ok None
  | line_info :: rest =>
      if models.pk (line line_info) =? models.pk root
      then v ← call line_info; mret (Some v)
      else for_line_info root call rest
  end.

Definition resolve_unit_price
  : models.CheckoutLine -> ResolveInfo -> Promise (option TaxedMoney) :=
  prevent_sync_event_circular_query (fun root info =>
    let with_checkout (data : option models.Checkout * PluginsManager) :=
      let '(checkout, manager) := data in
      tok ← token_of checkout;
      let checkout_info :=
        load (CheckoutInfoByCheckoutTokenLoader (context info)) tok in
      let lines :=
        load (CheckoutLinesInfoByCheckoutTokenLoader (context info)) tok in
      let calculate_line_unit_price
            (data : CheckoutInfo * list CheckoutLineInfo) :=
        let '(checkout_info, lines) := data in
        for_line_info root
          (fun line_info =>
             checkout_line_unit_price calculations
               manager checkout_info lines line_info)
          lines in
      then_ (Promise_all2 checkout_info lines) calculate_line_unit_price in
    then_
      (Promise_all2
         (load (CheckoutByTokenLoader (context info)) (models.checkout_id root))
         (get_plugin_manager_promise (context info)))
      with_checkout).

Definition resolve_undiscounted_unit_price
    (root : models.CheckoutLine) (info : ResolveInfo)
  : Promise (option Money) :=
  let with_checkout (checkout : option models.Checkout) :=
    tok ← token_of checkout;
    let checkout_info :=
      load (CheckoutInfoByCheckoutTokenLoader (context info)) tok in
    let lines :=
      load (CheckoutLinesInfoByCheckoutTokenLoader (context info)) tok in
    let calculate_undiscounted_unit_price
          (data : CheckoutInfo * list CheckoutLineInfo) :=
      let '(checkout_info, lines) := data in
      for_line_info root
        (fun line_info =>
           calculate_undiscounted_base_line_unit_price calculations
             line_info (info_channel checkout_info))
        lines in
    then_ (Promise_all2 checkout_info lines) calculate_undiscounted_unit_price in
  then_
    (load (CheckoutByTokenLoader (context info)) (models.checkout_id root))
    with_checkout.

Definition resolve_total_price
  : models.CheckoutLine -> ResolveInfo -> Promise (option TaxedMoney) :=
  traced_resolver (prevent_sync_event_circular_query (fun root info =>
    let with_checkout (data : option models.Checkout * PluginsManager) :=
      let '(checkout, manager) := data in
      tok ← token_of checkout;
      let checkout_info :=
        load (CheckoutInfoByCheckoutTokenLoader (context info)) tok in
      let lines :=
        load (CheckoutLinesInfoByCheckoutTokenLoader (context info)) tok in
      let calculate_line_total_price
            (data : CheckoutInfo * list CheckoutLineInfo) :=
        let '(checkout_info, lines) := data in
        for_line_info root
          (fun line_info =>
             checkout_line_total calculations
               manager checkout_info lines line_info)
          lines in
      then_ (Promise_all2 checkout_info lines) calculate_line_total_price in
    then_
      (Promise_all2
         (load (CheckoutByTokenLoader (context info)) (models.checkout_id root))
         (get_plugin_manager_promise (context info)))
      with_checkout)).

Definition resolve_undiscounted_total_price
    (root : models.CheckoutLine) (info : ResolveInfo)
  : Promise (option Money) :=
  let with_checkout (checkout : option models.Checkout) :=
    tok ← token_of checkout;
    let checkout_info :=
      load (CheckoutInfoByCheckoutTokenLoader (context info)) tok in
    let lines :=
      load (CheckoutLinesInfoByCheckoutTokenLoader (context info)) tok in
    let calculate_undiscounted_total_price
          (data : CheckoutInfo * list CheckoutLineInfo) :=
      let '(checkout_info, lines) := data in
      for_line_info root
        (fun line_info =>
           calculate_undiscounted_base_line_total_price calculations
             line_info (info_channel checkout_info))
        lines in
    then_ (Promise_all2 checkout_info lines) calculate_undiscounted_total_price in
  then_
    (load (CheckoutByTokenLoader (context info)) (models.checkout_id root))
    with_checkout.

End Resolvers.
End CheckoutLine.

(** *** [class Checkout] *)
Module Checkout.
Section Resolvers.
Variable calculations : Calculations.

Definition resolve_shipping_methods
  : models.Checkout -> ResolveInfo -> Promise (list ShippingMethodData) :=
  traced_resolver (prevent_sync_event_circular_query (fun root info =>
    then_
      (load (CheckoutInfoByCheckoutTokenLoader (context info))
            (models.token root))
      (fun checkout_info => unwrap_lazy (all_shipping_methods checkout_info)))).

Definition resolve_quantity (root : models.Checkout) (info : ResolveInfo)
  : Promise Z :=
  let checkout_info :=
    load (CheckoutLinesInfoByCheckoutTokenLoader (context info))
         (models.token root) in
  let calculate_quantity (lines : list CheckoutLineInfo) : Promise Z :=
    Ok (py_sum (map (fun line_info => models.quantity (line line_info)) lines)) in
  then_ checkout_info calculate_quantity.

Definition resolve_total_price
  : models.Checkout -> ResolveInfo -> Promise TaxedMoney :=
  traced_resolver (prevent_sync_event_circular_query (fun root info =>
    let calculate_total_price
          (data : option Address * list CheckoutLineInfo * CheckoutInfo
                  * PluginsManager) :=
      let '(address, lines, checkout_info, manager) := data in
      taxed_total ←
        calculate_checkout_total_with_gift_cards calculations
          manager checkout_info lines address;
      Prices.max taxed_total (zero_taxed_money (models.currency root)) in
    let dataloaders := get_dataloaders_for_fetching_checkout_data root info in
    then_ (Promise_all_dataloaders dataloaders) calculate_total_price)).

Definition resolve_subtotal_price
  : models.Checkout -> ResolveInfo -> Promise TaxedMoney :=
  traced_resolver (prevent_sync_event_circular_query (fun root info =>
    let calculate_subtotal_price
          (data : option Address * list CheckoutLineInfo * CheckoutInfo
                  * PluginsManager) :=
      let '(address, lines, checkout_info, manager) := data in
      checkout_subtotal calculations manager checkout_info lines address in
    let dataloaders := get_dataloaders_for_fetching_checkout_data root info in
    then_ (Promise_all_dataloaders dataloaders) calculate_subtotal_price)).

Definition resolve_shipping_price
  : models.Checkout -> ResolveInfo -> Promise TaxedMoney :=
  traced_resolver (prevent_sync_event_circular_query (fun root info =>
    let calculate_shipping_price
          (data : option Address * list CheckoutLineInfo * CheckoutInfo
                  * PluginsManager) :=
      let '(address, lines, checkout_info, manager) := data in
      checkout_shipping_price calculations manager checkout_info lines address in
    let dataloaders := get_dataloaders_for_fetching_checkout_data root info in
    then_ (Promise_all_dataloaders dataloaders) calculate_shipping_price)).

Definition resolve_available_shipping_methods
  : models.Checkout -> ResolveInfo -> Promise (list ShippingMethodData) :=
  traced_resolver (prevent_sync_event_circular_query (fun root info =>
    then_
      (load (CheckoutInfoByCheckoutTokenLoader (context info))
            (models.token root))
      (fun checkout_info => valid_shipping_methods checkout_info))).

Definition resolve_available_payment_gateways
  : models.Checkout -> ResolveInfo -> Promise (list PaymentGatewayData) :=
  prevent_sync_event_circular_query (plugin_manager_promise_callback
    (fun root _info manager =>
       list_payment_gateways manager
         (models.currency root) root (slug (models.channel root)))).

Definition resolve_authorize_status
    (root : models.Checkout) (info : ResolveInfo) : Promise string :=
  let _resolve_authorize_status
        (data : option Address * list CheckoutLineInfo * CheckoutInfo
                * PluginsManager * list TransactionItem) :=
    let '(address, lines, checkout_info, manager, transactions) := data in
    checkout_info ←
      fetch_checkout_data calculations
        checkout_info manager lines address transactions;
    mret (models.authorize_status (checkout checkout_info)) in
  let dataloaders := get_dataloaders_for_fetching_checkout_data root info in
  let transactions :=
    load (TransactionItemsByCheckoutIDLoader (context info))
         (models.pk_of_checkout root) in
  then_ (Promise_all_dataloaders_with dataloaders transactions)
        _resolve_authorize_status.

Definition resolve_charge_status
    (root : models.Checkout) (info : ResolveInfo) : Promise string :=
  let _resolve_charge_status
        (data : option Address * list CheckoutLineInfo * CheckoutInfo
                * PluginsManager * list TransactionItem) :=
    let '(address, lines, checkout_info, manager, transactions) := data in
    checkout_info ←
      fetch_checkout_data calculations
        checkout_info manager lines address transactions;
    mret (models.charge_status (checkout checkout_info)) in
  let dataloaders := get_dataloaders_for_fetching_checkout_data root info in
  let transactions :=
    load (TransactionItemsByCheckoutIDLoader (context info))
         (models.pk_of_checkout root) in
  then_ (Promise_all_dataloaders_with dataloaders transactions)
        _resolve_charge_status.

(** The loop of [resolve_total_balance] over the transactions. *)
Fixpoint add_charges (total_charged : Money)
    (transactions : list TransactionItem) : result Money :=
  match transactions with
  | [] => Ok total_charged
  | transaction :: rest =>
      total_charged ← Money_add total_charged (amount_charged transaction);
      total_charged ←
        Money_add total_charged (amount_charge_pending transaction);
      add_charges total_charged rest
  end.

Definition resolve_total_balance
    (root : models.Checkout) (info : ResolveInfo) : Promise Money :=
  let _calculate_total_balance_for_transactions
        (data : option Address * list CheckoutLineInfo * CheckoutInfo
                * PluginsManager * list TransactionItem) :=
    let '(address, lines, checkout_info, manager, transactions) := data in
    taxed_total ←
      calculate_checkout_total_with_gift_cards calculations
        manager checkout_info lines address;
    checkout_total ←
      Prices.max taxed_total (zero_taxed_money (models.currency root));
    let total_charged := zero_money (models.currency root) in
    total_charged ← add_charges total_charged transactions;
    Money_sub total_charged (gross checkout_total) in
  let dataloaders := get_dataloaders_for_fetching_checkout_data root info in
  let transactions :=
    load (TransactionItemsByCheckoutIDLoader (context info))
         (models.pk_of_checkout root) in
  then_ (Promise_all_dataloaders_with dataloaders transactions)
        _calculate_total_balance_for_transactions.

End Resolvers.
End Checkout.

End CheckoutTypes.

(** ** [saleor/graphql/payment/mutations/transaction/__init__.py] *)
Module TransactionMutations.

(** [from <module> import <name>] *)
Record ImportFrom : Type := mkImportFrom { from_module : string; name : string }.

Definition imports : list ImportFrom :=
  [ mkImportFrom ".transaction_create" "TransactionCreate";
    mkImportFrom ".transaction_event_report" "TransactionEventReport";
    mkImportFrom ".transaction_initialize" "TransactionInitialize";
    mkImportFrom ".transaction_process" "TransactionProcess";
    mkImportFrom ".transaction_request_action" "TransactionRequestAction";
    mkImportFrom ".transaction_update" "TransactionUpdate" ].

Definition __all__ : list string :=
  [ "TransactionCreate";
    "TransactionEventReport";
    "TransactionInitialize";
    "TransactionProcess";
    "TransactionRequestAction";
    "TransactionUpdate" ].

(** The names the module's import statements bind. *)
Definition bound_names : list string := map name imports.

End TransactionMutations.

(** ** The [confirmEmailChange] mutation

    Its tests are in
    [saleor/graphql/account/tests/mutations/account/test_confirm_email_change.py];
    the mutation itself is described, not shown. *)
Module ConfirmEmailChange.

Record User : Type := mkUser {
  user_pk : Z;
  email : string;
  first_name : string;
  last_name : string;
  search_document : string
}.

(** The payload the tests sign into the token. *)
Record Payload : Type := mkPayload {
  old_email : string;
  new_email : string;
  payload_user_pk : Z
}.

(** A signed token: its payload and the instant it expires. *)
Record Token : Type := mkToken { payload : Payload; exp : Z }.

(** [create_token(payload, lifetime)] issued at instant [now]. *)
Definition create_token (now : Z) (p : Payload) (lifetime : Z) : Token :=
  mkToken p (now + lifetime).

Record AccountError : Type := mkAccountError {
  code : string;
  message : string;
  field : string
}.

(** The [confirmEmailChange] entry of the response data. *)
Record Response : Type := mkResponse {
  user : option User;
  errors : list AccountError
}.

(** The stored users, and the calls received so far by the two functions the
    test replaces by mocks. *)
Record State : Type := mkState {
  users : list User;
  assign_user_gift_cards_calls : list User;
  match_orders_with_new_user_calls : list User
}.

(** [needle in haystack] on strings. *)
Fixpoint str_in (needle haystack : string) : bool :=
  String.prefix needle haystack ||
  match haystack with
  | EmptyString => false
  | String _ rest => str_in needle rest
  end.

(** Modelled from the spec: the search document stored with a user holds the
    user's e-mail address (then the names), one per line. *)
Definition newline : string := String (Ascii.ascii_of_nat 10) EmptyString.

Definition prepare_user_search_document_value (u : User) : string :=
  (email u ++ newline ++ first_name u ++ newline ++ last_name u ++ newline)%string.

Definition email_taken (st : State) (address : string) : bool :=
  existsb (fun u => String.eqb (email u) address) (users st).

(** [user.save()]: the stored row with the user's key is replaced. *)
Definition save (u : User) (rows : list User) : list User :=
  map (fun row => if user_pk row =? user_pk u then u else row) rows.

Definition get_user (st : State) (key : Z) : option User :=
  find (fun row => user_pk row =? key) (users st).

Definition unique_error : AccountError :=
  mkAccountError "UNIQUE" "Email is used by other user." "newEmail".

Definition invalid_token_error : AccountError :=
  mkAccountError "JWT_INVALID_TOKEN" "Invalid or expired token." "token".

(** Modelled from the spec: the [confirmEmailChange] mutation of
    [saleor/graphql/account/mutations/account/confirm_email_change.py],
    which is not among the sources.  Called at instant [now] by
    [requestor] with [token]: an expired token is refused; a new e-mail that
    a stored user already has is refused with the [UNIQUE] error and nothing
    is stored; otherwise the requesting user gets the new e-mail and a
    search document made from it, is saved, and gift cards and orders are
    assigned to that user. *)
Definition confirm_email_change (now : Z) (st : State) (requestor : User)
    (token : Token) : State * Response :=
  if exp token <=? now
  then (st, mkResponse None [invalid_token_error])
  else
    let new := new_email (payload token) in
    if email_taken st new
    then (st, mkResponse None [unique_error])
    else
      let renamed :=
        mkUser (user_pk requestor) new (first_name requestor)
               (last_name requestor) (search_document requestor) in
      let updated :=
        mkUser (user_pk renamed) (email renamed) (first_name renamed)
               (last_name renamed)
               (prepare_user_search_document_value renamed) in
      (mkState (save updated (users st))
               (assign_user_gift_cards_calls st ++ [updated])
               (match_orders_with_new_user_calls st ++ [updated]),
       mkResponse (Some updated) []).

End ConfirmEmailChange.

(** ** What the description says, in its own words *)
Module CheckoutSpec.
Import Prices CheckoutTypes.

(** The key of the address used for the price fields: the shipping address
    when it is set, otherwise the billing address when that is set. *)
Definition chosen_address_id (root : models.Checkout) : option Z :=
  match models.shipping_address_id root with
  | Some shipping => Some shipping
  | None => models.billing_address_id root
  end.

(** Keys of stored rows are positive. *)
Definition stored_key (x : option Z) : Prop := forall k, x = Some k -> 0 < k.

(** The sum of the quantity of every line. *)
Definition total_quantity (lines : list CheckoutLineInfo) : Z :=
  foldr (fun line_info acc => models.quantity (line line_info) + acc) 0 lines.

(** The sum over the transactions of charged plus pending amounts. *)
Definition charged_plus_pending (transactions : list TransactionItem) : Z :=
  foldr
    (fun transaction acc =>
       amount (amount_charged transaction)
       + amount (amount_charge_pending transaction) + acc)
    0 transactions.

(** Every amount of every transaction is in currency [c]. *)
Definition in_currency (c : string) (transactions : list TransactionItem)
  : Prop :=
  Forall
    (fun transaction =>
       Prices.currency (amount_charged transaction) = c
       /\ Prices.currency (amount_charge_pending transaction) = c)
    transactions.

(** The first loaded line whose primary key is [key]. *)
Definition first_line_with_pk (key : Z) (lines : list CheckoutLineInfo)
  : option CheckoutLineInfo :=
  find (fun line_info => models.pk (line line_info) =? key) lines.

(** What a line price resolver answers once the line has been looked up. *)
Definition price_of_found_line {A} (call : CheckoutLineInfo -> result A)
    (found : option CheckoutLineInfo) : result (option A) :=
  match found with
  | Some line_info => v ← call line_info; mret (Some v)
  | None => Ok None
  end.

End CheckoutSpec.

(** ** A shop to run the resolvers on *)
Module Examples.
Import Prices CheckoutTypes.

Definition usd (n : Z) : Money := mkMoney n "USD".

Definition taxed (n g : Z) : TaxedMoney := mkTaxedMoney (usd n) (usd g).

Definition channel : Channel := mkChannel 1 "default-channel".

Definition root : models.Checkout :=
  models.mkCheckout 7 "USD" (Some 3) (Some 4) channel "none" "none".

Definition billing_only : models.Checkout :=
  models.mkCheckout 8 "USD" None (Some 4) channel "none" "none".

Definition no_address : models.Checkout :=
  models.mkCheckout 9 "USD" None None channel "none" "none".

Definition line1 : models.CheckoutLine := models.mkCheckoutLine 11 7 101 2.
Definition line2 : models.CheckoutLine := models.mkCheckoutLine 12 7 102 3.
Definition stray_line : models.CheckoutLine := models.mkCheckoutLine 13 7 103 1.

Definition lines : list CheckoutLineInfo :=
  [ mkCheckoutLineInfo line1 201; mkCheckoutLineInfo line2 202 ].

Definition transactions : list TransactionItem :=
  [ mkTransactionItem (usd 500) (usd 100); mkTransactionItem (usd 0) (usd 250) ].

Definition manager : PluginsManager :=
  mkPluginsManager
    (fun _ _ _ => Ok [ mkPaymentGatewayData "mirumee.payments.dummy" ["USD"] ]).

Definition checkout_info : CheckoutInfo :=
  mkCheckoutInfo root channel
    (Ok [ mkShippingMethodData 1 "DHL" ]) (Ok [ mkShippingMethodData 1 "DHL" ]).

(** An engine that charges 10.00 net and 12.30 gross a piece, takes a gift
    card of 50.00 off the total, and marks a checkout fully authorized and
    partially charged. *)
Definition calculations : Calculations :=
  mkCalculations
    (fun _ _ ls _ =>
       let n := CheckoutSpec.total_quantity ls in
       Ok (taxed (1000 * n - 5000) (1230 * n - 5000)))
    (fun _ _ ls _ =>
       let n := CheckoutSpec.total_quantity ls in
       Ok (taxed (1000 * n) (1230 * n)))
    (fun _ _ _ _ => Ok (taxed 0 0))
    (fun _ _ _ _ => Ok (taxed 1000 1230))
    (fun _ _ _ li =>
       let n := models.quantity (line li) in Ok (taxed (1000 * n) (1230 * n)))
    (fun ci _ _ _ _ =>
       let c := checkout ci in
       Ok (mkCheckoutInfo
             (models.mkCheckout (models.token c) (models.currency c)
                (models.shipping_address_id c) (models.billing_address_id c)
                (models.channel c) "full" "partial")
             (info_channel ci) (all_shipping_methods ci)
             (valid_shipping_methods ci)))
    (fun _ _ => Ok (usd 1100))
    (fun li _ => Ok (usd (1100 * models.quantity (line li)))).

Definition ctx (sync : bool) : SaleorContext :=
  mkSaleorContext sync
    (fun key =>
       if key =? 3 then Some (mkAddress 3 "US")
       else if key =? 4 then Some (mkAddress 4 "PL")
       else None)
    (fun tok => if tok =? 7 then Some root else None)
    (fun _ => checkout_info)
    (fun tok => if tok =? 7 then lines else [])
    (fun key => if key =? 7 then transactions else [])
    manager.

(** An ordinary request, and the request made while a synchronous event
    is being served. *)
Definition info : ResolveInfo := mkResolveInfo (ctx false).
Definition sync_info : ResolveInfo := mkResolveInfo (ctx true).

End Examples.

(** ** The users of the tests *)
Module AccountExamples.
Import ConfirmEmailChange.

Definition customer_user : User :=
  mkUser 1 "test@example.com" "Leslie" "Wade"
    (prepare_user_search_document_value
       (mkUser 1 "test@example.com" "Leslie" "Wade" "")).

Definition staff_user : User :=
  mkUser 2 "staff_test@example.com" "Jordan" "Hill"
    (prepare_user_search_document_value
       (mkUser 2 "staff_test@example.com" "Jordan" "Hill" "")).

(** The stored users, with both mocks not yet called. *)
Definition database : State := mkState [customer_user; staff_user] [] [].

(** The token of [test_email_update], issued at instant 0 for one hour. *)
Definition update_token : Token :=
  create_token 0
    (mkPayload (email customer_user) "new_email@example.com"
       (user_pk customer_user))
    3600.

(** The token of [test_email_update_to_existing_email]. *)
Definition existing_email_token : Token :=
  create_token 0
    (mkPayload (email customer_user) (email staff_user)
       (user_pk customer_user))
    3600.

End AccountExamples.

(** ** The further fields of [saleor/graphql/checkout/types.py] *)
Module CheckoutFields.
Import Prices CheckoutTypes.

Record ProductType : Type := mkProductType {
  product_type_pk : Z;
  is_shipping_required : bool
}.

Record Warehouse : Type := mkWarehouse { warehouse_pk : Z; warehouse_name : string }.

(** What [delivery_method_info.delivery_method] can hold besides [None]. *)
Inductive DeliveryMethodInstance : Type :=
| ShippingMethodInstance (method : ShippingMethodData)
| WarehouseInstance (warehouse : Warehouse).

(** The two members of the [DeliveryMethod] union. *)
Inductive DeliveryMethodType : Type :=
| ShippingMethodType
| WarehouseType.

(** A stock reservation; instants are seconds. *)
Record Reservation : Type := mkReservation { reserved_until : Z }.

Record MetadataStorage : Type := mkMetadataStorage {
  metadata : gmap string string;
  private_metadata : gmap string string
}.

(** What a single metafield resolver answers: [dict.get(key)], or the empty
    dict of the [else] branch. *)
Inductive Metafield : Type :=
| Value (v : option string)
| EmptyDict.

Record TaxConfiguration : Type := mkTaxConfiguration {
  tax_configuration_id : Z;
  display_gross_prices : bool
}.

Record TaxConfigurationPerCountry : Type := mkTaxConfigurationPerCountry {
  country_code : string;
  country_display_gross_prices : bool
}.

(** [any(xs)] *)
Definition any (xs : list bool) : bool := existsb (fun x => x) xs.

(** [min(xs)]: the first least element; an empty argument raises. *)
Fixpoint min_from (least : Z) (xs : list Z) : Z :=
  match xs with
  | [] => least
  | x :: rest => min_from (if x <? least then x else least) rest
  end.

Definition py_min (xs : list Z) : result Z :=
  match xs with
  | [] => Raise ValueError
  | x :: rest => Ok (min_from x rest)
  end.

(** [next((x for x in xs if test(x)), None)] *)
Fixpoint next_or_None {A} (test : A -> bool) (xs : list A) : option A :=
  match xs with
  | [] => None
  | x :: rest => if test x then Some x else next_or_None test rest
  end.

(** [Loader(info.context).load_many(keys)] *)
Definition load_many {K V} (loader : K -> V) (keys : list K) : Promise (list V) :=
  Ok (map loader keys).

(** [info] with another transactions loader, all else the same. *)
Definition with_transactions (info : ResolveInfo)
    (loader : Z -> list TransactionItem) : ResolveInfo :=
  mkResolveInfo
    (mkSaleorContext
       (sync_event (context info))
       (AddressByIdLoader (context info))
       (CheckoutByTokenLoader (context info))
       (CheckoutInfoByCheckoutTokenLoader (context info))
       (CheckoutLinesInfoByCheckoutTokenLoader (context info))
       loader
       (plugin_manager (context info))).

(** Whether both amounts of every transaction are in currency [c]. *)
Definition all_in_currency (c : string) (transactions : list TransactionItem)
  : bool :=
  forallb
    (fun transaction =>
       String.eqb (Prices.currency (amount_charged transaction)) c
       && String.eqb (Prices.currency (amount_charge_pending transaction)) c)
    transactions.

(** *** [class DeliveryMethod] *)

(** [DeliveryMethod.resolve_type]; the fall-through to the parent class is
    for instances of neither class, which the union does not hold. *)
Definition DeliveryMethod_resolve_type (instance : DeliveryMethodInstance)
  : DeliveryMethodType :=
  match instance with
  | ShippingMethodInstance _ => ShippingMethodType
  | WarehouseInstance _ => WarehouseType
  end.

Section Resolvers.

(** The loaders the resolvers below ask, each a function of [info.context]
    and the key, and the helpers of other modules they call. *)
Variable ProductTypeByProductIdLoader : SaleorContext -> Z -> ProductType.
Variable ProductTypeByVariantIdLoader : SaleorContext -> Z -> ProductType.
Variable StocksReservationsByCheckoutTokenLoader :
  SaleorContext -> Z -> list Reservation.
Variable CheckoutMetadataByCheckoutIdLoader :
  SaleorContext -> Z -> option MetadataStorage.
Variable TaxConfigurationByChannelId : SaleorContext -> Z -> TaxConfiguration.
Variable TaxConfigurationPerCountryByTaxConfigurationIDLoader :
  SaleorContext -> Z -> list TaxConfigurationPerCountry.

Variable Site : Type.
Variable SiteSettings : Type.
Variable settings : Site -> SiteSettings.
Variable get_site_promise : SaleorContext -> Promise Site.
Variable is_reservation_enabled : SiteSettings -> bool.

(** [checkout_info.delivery_method_info.delivery_method] *)
Variable delivery_method : CheckoutInfo -> option DeliveryMethodInstance.
(** [root.get_country()] *)
Variable get_country : models.Checkout -> string.
Variable get_display_gross_prices :
  TaxConfiguration -> option TaxConfigurationPerCountry -> bool.
Variable check_private_metadata_privilege :
  MetadataStorage -> ResolveInfo -> result unit.
Variable _filter_metadata :
  gmap string string -> option (list string) -> gmap string string.

(** [load_site_callback] of [saleor/graphql/site/dataloaders.py], like
    [plugin_manager_promise_callback]: the loaded site becomes the resolver's
    third argument. *)
Definition load_site_callback {R A}
    (func : R -> ResolveInfo -> Site -> Promise A)
  : R -> ResolveInfo -> Promise A :=
  fun root info => then_ (get_site_promise (context info)) (func root info).

(** *** [class CheckoutLine] *)

Definition CheckoutLine_resolve_requires_shipping
    (root : models.CheckoutLine) (info : ResolveInfo) : Promise bool :=
  let is_shipping_required (product_type : ProductType) : Promise bool :=
    Ok (is_shipping_required product_type) in
  then_
    (load (ProductTypeByVariantIdLoader (context info)) (models.variant_id root))
    is_shipping_required.

(** *** [class Checkout] *)

Definition resolve_shipping_address
    (root : models.Checkout) (info : ResolveInfo)
  : option (Promise (option Address)) :=
  if negb (truthy (models.shipping_address_id root))
  then None
  else
    match models.shipping_address_id root with
    | Some key => Some (load (AddressByIdLoader (context info)) key)
    | None => None
    end.

Definition resolve_billing_address
    (root : models.Checkout) (info : ResolveInfo)
  : option (Promise (option Address)) :=
  if negb (truthy (models.billing_address_id root))
  then None
  else
    match models.billing_address_id root with
    | Some key => Some (load (AddressByIdLoader (context info)) key)
    | None => None
    end.

Definition resolve_shipping_method
    (root : models.Checkout) (info : ResolveInfo)
  : Promise (option ShippingMethodData) :=
  let with_checkout_info (checkout_info : CheckoutInfo)
    : Promise (option ShippingMethodData) :=
    let delivery_method := delivery_method checkout_info in
    match delivery_method with
    | None => Ok None
    | Some (WarehouseInstance _) => Ok None
    | Some (ShippingMethodInstance method) => Ok (Some method)
    end in
  then_
    (load (CheckoutInfoByCheckoutTokenLoader (context info)) (models.token root))
    with_checkout_info.

Definition resolve_delivery_method
    (root : models.Checkout) (info : ResolveInfo)
  : Promise (option DeliveryMethodInstance) :=
  then_
    (load (CheckoutInfoByCheckoutTokenLoader (context info)) (models.token root))
    (fun checkout_info => Ok (delivery_method checkout_info)).

Definition resolve_is_shipping_required
    (root : models.Checkout) (info : ResolveInfo) : Promise bool :=
  let is_shipping_required_ (lines : list CheckoutLineInfo) : Promise bool :=
    let product_ids := map (fun line_info => product_id line_info) lines in
    let with_product_types (product_types : list ProductType) : Promise bool :=
      Ok (any (map (fun pt => is_shipping_required pt) product_types)) in
    then_
      (load_many (ProductTypeByProductIdLoader (context info)) product_ids)
      with_product_types in
  then_
    (load (CheckoutLinesInfoByCheckoutTokenLoader (context info))
          (models.token root))
    is_shipping_required_.

Definition resolve_stock_reservation_expires
  : models.Checkout -> ResolveInfo -> Promise (option Z) :=
  traced_resolver (load_site_callback (fun root info site =>
    if negb (is_reservation_enabled (settings site))
    then Ok None
    else
      let get_oldest_stock_reservation_expiration_date
            (reservations : list Reservation) : Promise (option Z) :=
        match reservations with
        | [] => Ok None
        | _ =>
            oldest ←
              py_min (map (fun reservation => reserved_until reservation)
                          reservations);
            mret (Some oldest)
        end in
      then_
        (load (StocksReservationsByCheckoutTokenLoader (context info))
              (models.token root))
        get_oldest_stock_reservation_expiration_date)).

Definition resolve_display_gross_prices
    (root : models.Checkout) (info : ResolveInfo) : Promise bool :=
  let tax_config :=
    load (TaxConfigurationByChannelId (context info))
         (channel_pk (models.channel root)) in
  let country_code_ := get_country root in
  let load_tax_country_exceptions (tax_config : TaxConfiguration)
    : Promise bool :=
    let tax_configs_per_country :=
      load (TaxConfigurationPerCountryByTaxConfigurationIDLoader (context info))
           (tax_configuration_id tax_config) in
    let calculate_display_gross_prices
          (tax_configs_per_country : list TaxConfigurationPerCountry)
      : Promise bool :=
      let tax_config_country :=
        next_or_None
          (fun tc => String.eqb (country_code tc) country_code_)
          tax_configs_per_country in
      Ok (get_display_gross_prices tax_config tax_config_country) in
    then_ tax_configs_per_country calculate_display_gross_prices in
  then_ tax_config load_tax_country_exceptions.

Definition resolve_metafield
    (root : models.Checkout) (info : ResolveInfo) (key : string)
  : Promise Metafield :=
  then_
    (load (CheckoutMetadataByCheckoutIdLoader (context info))
          (models.pk_of_checkout root))
    (fun metadata_storage =>
       match metadata_storage with
       | Some storage => Ok (Value (metadata storage !! key))
       | None => Ok EmptyDict
       end).

Definition resolve_metafields
    (root : models.Checkout) (info : ResolveInfo) (keys : option (list string))
  : Promise (gmap string string) :=
  then_
    (load (CheckoutMetadataByCheckoutIdLoader (context info))
          (models.pk_of_checkout root))
    (fun metadata_storage =>
       match metadata_storage with
       | Some storage => Ok (_filter_metadata (metadata storage) keys)
       | None => Ok ∅
       end).

Definition resolve_private_metafield
    (root : models.Checkout) (info : ResolveInfo) (key : string)
  : Promise Metafield :=
  let resolve_private_metafield_with_privilege_check
        (metadata_storage : MetadataStorage) : Promise Metafield :=
    _ ← check_private_metadata_privilege metadata_storage info;
    mret (Value (private_metadata metadata_storage !! key)) in
  then_
    (load (CheckoutMetadataByCheckoutIdLoader (context info))
          (models.pk_of_checkout root))
    (fun metadata_storage =>
       match metadata_storage with
       | Some storage => resolve_private_metafield_with_privilege_check storage
       | None => Ok EmptyDict
       end).

Definition resolve_private_metafields
    (root : models.Checkout) (info : ResolveInfo) (keys : option (list string))
  : Promise (gmap string string) :=
  let resolve_private_metafields_with_privilege
        (metadata_storage : MetadataStorage) : Promise (gmap string string) :=
    _ ← check_private_metadata_privilege metadata_storage info;
    mret (_filter_metadata (private_metadata metadata_storage) keys) in
  then_
    (load (CheckoutMetadataByCheckoutIdLoader (context info))
          (models.pk_of_checkout root))
    (fun metadata_storage =>
       match metadata_storage with
       | Some storage => resolve_private_metafields_with_privilege storage
       | None => Ok ∅
       end).

End Resolvers.
End CheckoutFields.

(** ** More of the example shop *)
Module FieldExamples.
Import Prices CheckoutTypes CheckoutFields.

Definition ProductTypeByProductIdLoader (_ : SaleorContext) (key : Z)
  : ProductType :=
  if key =? 201 then mkProductType 1 true else mkProductType 2 false.

Definition ProductTypeByVariantIdLoader (_ : SaleorContext) (key : Z)
  : ProductType :=
  if key =? 101 then mkProductType 1 true else mkProductType 2 false.

Definition StocksReservationsByCheckoutTokenLoader (_ : SaleorContext)
    (tok : Z) : list Reservation :=
  if tok =? 7
  then [ mkReservation 1700; mkReservation 1500; mkReservation 1900 ]
  else [].

Definition storage : MetadataStorage :=
  mkMetadataStorage (<["note" := "fragile"]> ∅) (<["note" := "vip"]> ∅).

Definition CheckoutMetadataByCheckoutIdLoader (_ : SaleorContext) (key : Z)
  : option MetadataStorage :=
  if key =? 7 then Some storage else None.

(** The same public metadata with other private metadata. *)
Definition CheckoutMetadataByCheckoutIdLoader' (_ : SaleorContext) (key : Z)
  : option MetadataStorage :=
  if key =? 7
  then Some (mkMetadataStorage (<["note" := "fragile"]> ∅) ∅)
  else None.

Definition TaxConfigurationByChannelId (_ : SaleorContext) (key : Z)
  : TaxConfiguration :=
  mkTaxConfiguration 5 true.

Definition TaxConfigurationPerCountryByTaxConfigurationIDLoader
    (_ : SaleorContext) (key : Z) : list TaxConfigurationPerCountry :=
  [ mkTaxConfigurationPerCountry "PL" true;
    mkTaxConfigurationPerCountry "US" false;
    mkTaxConfigurationPerCountry "US" true ].

Definition get_country (_ : models.Checkout) : string := "US".

Definition get_display_gross_prices (tax_config : TaxConfiguration)
    (tax_config_country : option TaxConfigurationPerCountry) : bool :=
  match tax_config_country with
  | Some exception => country_display_gross_prices exception
  | None => display_gross_prices tax_config
  end.

(** A site is its settings, and its settings whether reservation is on. *)
Definition get_site_promise (_ : SaleorContext) : Promise bool := Ok true.

Definition delivery_method (_ : CheckoutInfo) : option DeliveryMethodInstance :=
  Some (ShippingMethodInstance (mkShippingMethodData 1 "DHL")).

Definition collect_in_store (_ : CheckoutInfo) : option DeliveryMethodInstance :=
  Some (WarehouseInstance (mkWarehouse 4 "Depot")).

(** A privilege check that refuses every requestor. *)
Definition refuse (_ : MetadataStorage) (_ : ResolveInfo) : result unit :=
  Raise AttributeError.

Definition keep_all (stored : gmap string string) (_ : option (list string))
  : gmap string string := stored.

(** The transactions of the example in the opposite order. *)
Definition reordered (key : Z) : list TransactionItem :=
  rev (TransactionItemsByCheckoutIDLoader (Examples.ctx false) key).

(** Transactions of which one was charged in another currency. *)
Definition foreign (_ : Z) : list TransactionItem :=
  [ mkTransactionItem (Examples.usd 500) (Examples.usd 100);
    mkTransactionItem (mkMoney 10 "EUR") (Examples.usd 0) ].

(** A request whose checkout loader holds nothing. *)
Definition no_checkout_info : ResolveInfo :=
  mkResolveInfo
    (mkSaleorContext false
       (AddressByIdLoader (Examples.ctx false))
       (fun _ => None)
       (CheckoutInfoByCheckoutTokenLoader (Examples.ctx false))
       (CheckoutLinesInfoByCheckoutTokenLoader (Examples.ctx false))
       (TransactionItemsByCheckoutIDLoader (Examples.ctx false))
       (plugin_manager (Examples.ctx false))).

(** An engine that fails to price a checkout, and one that prices it in
    another currency. *)
Definition failing_calculations : Calculations :=
  mkCalculations
    (fun _ _ _ _ => Raise AttributeError)
    (checkout_subtotal Examples.calculations)
    (checkout_shipping_price Examples.calculations)
    (checkout_line_unit_price Examples.calculations)
    (checkout_line_total Examples.calculations)
    (fetch_checkout_data Examples.calculations)
    (calculate_undiscounted_base_line_unit_price Examples.calculations)
    (calculate_undiscounted_base_line_total_price Examples.calculations).

Definition euro_calculations : Calculations :=
  mkCalculations
    (fun _ _ _ _ => Ok (mkTaxedMoney (mkMoney 100 "EUR") (mkMoney 123 "EUR")))
    (checkout_subtotal Examples.calculations)
    (checkout_shipping_price Examples.calculations)
    (checkout_line_unit_price Examples.calculations)
    (checkout_line_total Examples.calculations)
    (fetch_checkout_data Examples.calculations)
    (calculate_undiscounted_base_line_unit_price Examples.calculations)
    (calculate_undiscounted_base_line_total_price Examples.calculations).

End FieldExamples.

(** * Properties *)

(** ** Promises and money *)
Module PricesFacts.
Import Prices.

Lemma then_Ok {A B} (a : A) (f : A -> Promise B) : then_ (Ok a) f = f a.
Proof. reflexivity. Qed.

Lemma then_Raise {A B} (e : exn) (f : A -> Promise B) :
  then_ (Raise e) f = Raise e.
Proof. reflexivity. Qed.

Lemma Money_lt_same (a b : Money) :
  currency a = currency b -> Money_lt a b = Ok (amount a <? amount b).
Proof.
  intros E. unfold Money_lt. rewrite E, String.eqb_refl. reflexivity.
Qed.

Lemma Money_add_same (a b : Money) :
  currency b = currency a ->
  Money_add a b = Ok (mkMoney (amount a + amount b) (currency a)).
Proof.
  intros E. unfold Money_add. rewrite E, String.eqb_refl. reflexivity.
Qed.

Lemma Money_sub_same (a b : Money) :
  currency b = currency a ->
  Money_sub a b = Ok (mkMoney (amount a - amount b) (currency a)).
Proof.
  intros E. unfold Money_sub. rewrite E, String.eqb_refl. reflexivity.
Qed.

Lemma max_zero (t : TaxedMoney) (c : string) :
  currency (gross t) = c ->
  max t (zero_taxed_money c) = Ok (clamp t c).
Proof.
  intros E. unfold max, TaxedMoney_lt.
  rewrite Money_lt_same by (simpl; exact E).
  reflexivity.
Qed.


Lemma clamp_gross_currency (t : TaxedMoney) (c : string) :
  currency (gross t) = c -> currency (gross (clamp t c)) = c.
Proof.
  intros E. unfold clamp. destruct (amount (gross t) <? 0); simpl; auto.
Qed.


(** The clamp constrains the gross part only: a total of net -1.00 and
    gross 0.50 passes unchanged. *)
Example clamp_keeps_negative_net :
  max (mkTaxedMoney (mkMoney (-100) "USD") (mkMoney 50 "USD"))
      (zero_taxed_money "USD")
  = Ok (mkTaxedMoney (mkMoney (-100) "USD") (mkMoney 50 "USD")).
Proof. reflexivity. Qed.

End PricesFacts.

(** ** The checkout resolvers *)
Module CheckoutProofs.
Import Prices CheckoutTypes CheckoutSpec PricesFacts.

(** *** Loading *)

Lemma py_sum_from (xs : list Z) (acc : Z) :
  fold_left Z.add xs acc = acc + foldr Z.add 0 xs.
Proof.
  revert acc. induction xs as [|x xs IH]; intros acc; simpl.
  - lia.
  - rewrite IH. lia.
Qed.

Lemma py_sum_quantities (lines : list CheckoutLineInfo) :
  py_sum (map (fun line_info => models.quantity (line line_info)) lines)
  = total_quantity lines.
Proof.
  unfold py_sum. rewrite py_sum_from, Z.add_0_l. unfold total_quantity.
  induction lines as [|l ls IH]; simpl; [reflexivity|].
  rewrite IH. reflexivity.
Qed.

(** In general the choice of [or] goes by truth value, so a key [0] counts
    as absent. *)
Lemma address_of_dataloaders (root : models.Checkout) (info : ResolveInfo) :
  fst (fst (fst (get_dataloaders_for_fetching_checkout_data root info)))
  = if truthy (models.shipping_address_id root)
    then option_map (load (AddressByIdLoader (context info)))
                    (models.shipping_address_id root)
    else if truthy (models.billing_address_id root)
    then option_map (load (AddressByIdLoader (context info)))
                    (models.billing_address_id root)
    else None.
Proof.
  unfold get_dataloaders_for_fetching_checkout_data, py_or. simpl.
  destruct (models.shipping_address_id root) as [s|] eqn:Es; simpl.
  - destruct (s =? 0) eqn:E0; simpl.
    + destruct (models.billing_address_id root) as [b|]; simpl; [|reflexivity].
      destruct (b =? 0); reflexivity.
    + rewrite E0. reflexivity.
  - destruct (models.billing_address_id root) as [b|]; simpl; [|reflexivity].
    destruct (b =? 0); reflexivity.
Qed.

Lemma stored_key_truthy (x : option Z) :
  stored_key x -> truthy x = match x with Some _ => true | None => false end.
Proof.
  intros H. destruct x as [k|]; simpl; [|reflexivity].
  specialize (H k eq_refl). destruct (Z.eqb_spec k 0); [lia|reflexivity].
Qed.

(** The loaded data: what [Promise.all] over the loaders settles to. *)
Lemma all_dataloaders (root : models.Checkout) (info : ResolveInfo) :
  exists address,
    Promise_all_dataloaders
      (get_dataloaders_for_fetching_checkout_data root info)
    = Ok (address,
          CheckoutLinesInfoByCheckoutTokenLoader (context info)
            (models.token root),
          CheckoutInfoByCheckoutTokenLoader (context info) (models.token root),
          plugin_manager (context info)).
Proof.
  unfold Promise_all_dataloaders, get_dataloaders_for_fetching_checkout_data.
  destruct (py_or _ _) as [k|]; simpl.
  - destruct (negb (k =? 0)); simpl; eexists; reflexivity.
  - eexists; reflexivity.
Qed.

(** C10: [Checkout.resolve_quantity] answers the sum of the quantity of every
    line the lines loader holds for the checkout, and [0] for a checkout
    without lines. *)
Theorem resolve_quantity_sums_lines
    (root : models.Checkout) (info : ResolveInfo) :
  Checkout.resolve_quantity root info
  = Ok (total_quantity
          (CheckoutLinesInfoByCheckoutTokenLoader (context info)
             (models.token root)))
  /\ (CheckoutLinesInfoByCheckoutTokenLoader (context info) (models.token root)
      = [] ->
      Checkout.resolve_quantity root info = Ok 0).
Proof.
  assert (E : Checkout.resolve_quantity root info
              = Ok (total_quantity
                      (CheckoutLinesInfoByCheckoutTokenLoader (context info)
                         (models.token root)))).
  { unfold Checkout.resolve_quantity, load. rewrite then_Ok.
    rewrite py_sum_quantities. reflexivity. }
  split; [exact E|].
  intros Hnil. rewrite E, Hnil. reflexivity.
Qed.

(** C5: for a checkout whose address keys are keys of stored rows, the
    address promise returned by [get_dataloaders_for_fetching_checkout_data]
    loads the shipping address when [shipping_address_id] is set, otherwise
    the billing address when [billing_address_id] is set, and is [None] when
    neither is; the lines, checkout info and plugin manager promises are
    returned in every case. *)
Theorem dataloaders_choose_address
    (root : models.Checkout) (info : ResolveInfo)
    (Hshipping : stored_key (models.shipping_address_id root))
    (Hbilling : stored_key (models.billing_address_id root)) :
  get_dataloaders_for_fetching_checkout_data root info
  = (match models.shipping_address_id root with
     | Some shipping =>
         Some (load (AddressByIdLoader (context info)) shipping)
     | None =>
         match models.billing_address_id root with
         | Some billing =>
             Some (load (AddressByIdLoader (context info)) billing)
         | None => None
         end
     end,
     load (CheckoutLinesInfoByCheckoutTokenLoader (context info))
          (models.token root),
     load (CheckoutInfoByCheckoutTokenLoader (context info))
          (models.token root),
     get_plugin_manager_promise (context info))
  /\ fst (fst (fst (get_dataloaders_for_fetching_checkout_data root info)))
     = option_map (load (AddressByIdLoader (context info)))
                  (chosen_address_id root).
Proof.
  pose proof (address_of_dataloaders root info) as Ha.
  rewrite (stored_key_truthy _ Hshipping), (stored_key_truthy _ Hbilling) in Ha.
  split.
  - unfold get_dataloaders_for_fetching_checkout_data in *. simpl in Ha.
    rewrite Ha.
    destruct (models.shipping_address_id root); simpl; [reflexivity|].
    destruct (models.billing_address_id root); reflexivity.
  - rewrite Ha. unfold chosen_address_id.
    destruct (models.shipping_address_id root); simpl; [reflexivity|].
    destruct (models.billing_address_id root); reflexivity.
Qed.

(** *** Totals *)

Lemma add_charges_in_currency (c : string)
    (transactions : list TransactionItem) (total_charged : Money) :
  currency total_charged = c ->
  in_currency c transactions ->
  Checkout.add_charges total_charged transactions
  = Ok (mkMoney (amount total_charged + charged_plus_pending transactions) c).
Proof.
  intros Hc Htx. revert total_charged Hc.
  induction Htx as [|transaction rest [Hcharged Hpending] _ IH];
    intros total_charged Hc; simpl.
  - rewrite Z.add_0_r. destruct total_charged; simpl in *. subst. reflexivity.
  - rewrite Money_add_same by congruence. simpl.
    rewrite Money_add_same by (simpl; congruence). simpl.
    rewrite IH by (simpl; exact Hc). simpl.
    f_equal. f_equal. lia.
Qed.

Lemma total_price_unfolded (calculations : Calculations)
    (root : models.Checkout) (info : ResolveInfo) :
  sync_event (context info) = false ->
  Checkout.resolve_total_price calculations root info
  = (data ← Promise_all_dataloaders
              (get_dataloaders_for_fetching_checkout_data root info);
     let '(address, lines, checkout_info, manager) := data in
     taxed_total ← calculate_checkout_total_with_gift_cards calculations
                     manager checkout_info lines address;
     Prices.max taxed_total (zero_taxed_money (models.currency root))).
Proof.
  intros Hsync.
  unfold Checkout.resolve_total_price, traced_resolver,
    prevent_sync_event_circular_query.
  rewrite Hsync. reflexivity.
Qed.


(** C2: [Checkout.resolve_total_balance] answers, in the checkout's currency,
    the sum over the checkout's transactions of [amount_charged] plus
    [amount_charge_pending], minus the gross part of the checkout total
    computed with gift cards and clamped below at zero; without
    transactions the charged sum is the zero amount it starts from. *)
Theorem resolve_total_balance_charged_minus_total
    (calculations : Calculations) (root : models.Checkout) (info : ResolveInfo)
    (address : option Address) (lines : list CheckoutLineInfo)
    (checkout_info : CheckoutInfo) (manager : PluginsManager)
    (taxed_total : TaxedMoney)
    (Hdata : Promise_all_dataloaders
               (get_dataloaders_for_fetching_checkout_data root info)
             = Ok (address, lines, checkout_info, manager))
    (Htotal : calculate_checkout_total_with_gift_cards calculations
                manager checkout_info lines address
              = Ok taxed_total)
    (Hcurrency : currency (gross taxed_total) = models.currency root)
    (Htransactions :
       in_currency (models.currency root)
         (TransactionItemsByCheckoutIDLoader (context info)
            (models.pk_of_checkout root))) :
  Checkout.resolve_total_balance calculations root info
  = Ok (mkMoney
          (charged_plus_pending
             (TransactionItemsByCheckoutIDLoader (context info)
                (models.pk_of_checkout root))
           - amount (gross (clamp taxed_total (models.currency root))))
          (models.currency root))
  /\ (TransactionItemsByCheckoutIDLoader (context info)
        (models.pk_of_checkout root) = [] ->
      Checkout.resolve_total_balance calculations root info
      = Money_sub (zero_money (models.currency root))
                  (gross (clamp taxed_total (models.currency root)))).
Proof.
  assert (E : Checkout.resolve_total_balance calculations root info
              = (total_charged ←
                   Checkout.add_charges (zero_money (models.currency root))
                     (TransactionItemsByCheckoutIDLoader (context info)
                        (models.pk_of_checkout root));
                 Money_sub total_charged
                   (gross (clamp taxed_total (models.currency root))))).
  { unfold Checkout.resolve_total_balance, Promise_all_dataloaders_with.
    rewrite Hdata. unfold load. simpl.
    rewrite Htotal. simpl.
    rewrite (max_zero _ _ Hcurrency). reflexivity. }
  split.
  - rewrite E.
    rewrite (add_charges_in_currency (models.currency root))
      by (auto; reflexivity).
    simpl.
    rewrite Money_sub_same
      by (simpl; apply clamp_gross_currency, Hcurrency).
    reflexivity.
  - intros Hnone. rewrite E, Hnone. reflexivity.
Qed.


(** *** Line prices *)

Lemma for_line_info_first_match {A} (root : models.CheckoutLine)
    (call : CheckoutLineInfo -> result A) (lines : list CheckoutLineInfo) :
  CheckoutLine.for_line_info root call lines
  = price_of_found_line call (first_line_with_pk (models.pk root) lines).
Proof.
  unfold first_line_with_pk.
  induction lines as [|line_info rest IH]; simpl; [reflexivity|].
  destruct (models.pk (line line_info) =? models.pk root); simpl; auto.
Qed.

Lemma first_line_with_pk_None (key : Z) (lines : list CheckoutLineInfo) :
  first_line_with_pk key lines = None
  <-> Forall (fun line_info => models.pk (line line_info) <> key) lines.
Proof.
  unfold first_line_with_pk.
  induction lines as [|line_info rest IH]; simpl.
  - split; auto.
  - destruct (Z.eqb_spec (models.pk (line line_info)) key) as [E|N].
    + split; [discriminate|]. intros H. inversion H; subst. contradiction.
    + rewrite IH. split.
      * intros H. constructor; assumption.
      * intros H. inversion H; assumption.
Qed.

Lemma first_line_with_pk_Some (key : Z) (lines : list CheckoutLineInfo)
    (found : CheckoutLineInfo) :
  first_line_with_pk key lines = Some found ->
  exists before after : list CheckoutLineInfo,
    lines = (before ++ found :: after)%list
    /\ models.pk (line found) = key
    /\ Forall (fun line_info => models.pk (line line_info) <> key) before.
Proof.
  unfold first_line_with_pk.
  induction lines as [|line_info rest IH]; simpl; [discriminate|].
  destruct (Z.eqb_spec (models.pk (line line_info)) key) as [E|N].
  - intros [= <-]. exists [], rest. auto.
  - intros H. destruct (IH H) as (before & after & -> & Hk & Hb).
    exists (line_info :: before), after. auto.
Qed.

(** C6: for a line whose checkout is loaded, each of the four line price
    resolvers looks up the first loaded line of that checkout whose primary
    key is the resolved line's, answers the price computed for that very
    line, and answers [None] when no loaded line matches, although the four
    fields are declared required.  The two taxed resolvers do so on an
    ordinary request. *)
Theorem line_price_resolvers_first_match
    (calculations : Calculations) (root : models.CheckoutLine)
    (info : ResolveInfo) (checkout : models.Checkout)
    (Hcheckout : CheckoutByTokenLoader (context info) (models.checkout_id root)
                 = Some checkout) :
  let lines :=
    CheckoutLinesInfoByCheckoutTokenLoader (context info)
      (models.token checkout) in
  let checkout_info :=
    CheckoutInfoByCheckoutTokenLoader (context info) (models.token checkout) in
  let manager := plugin_manager (context info) in
  let found := first_line_with_pk (models.pk root) lines in
  (sync_event (context info) = false ->
   CheckoutLine.resolve_unit_price calculations root info
   = price_of_found_line
       (checkout_line_unit_price calculations manager checkout_info lines)
       found
   /\ CheckoutLine.resolve_total_price calculations root info
      = price_of_found_line
          (checkout_line_total calculations manager checkout_info lines)
          found)
  /\ CheckoutLine.resolve_undiscounted_unit_price calculations root info
     = price_of_found_line
         (fun line_info =>
            calculate_undiscounted_base_line_unit_price calculations
              line_info (info_channel checkout_info))
         found
  /\ CheckoutLine.resolve_undiscounted_total_price calculations root info
     = price_of_found_line
         (fun line_info =>
            calculate_undiscounted_base_line_total_price calculations
              line_info (info_channel checkout_info))
         found
  /\ (Forall (fun line_info => models.pk (line line_info) <> models.pk root)
        lines ->
      (sync_event (context info) = false ->
       CheckoutLine.resolve_unit_price calculations root info = Ok None
       /\ CheckoutLine.resolve_total_price calculations root info = Ok None)
      /\ CheckoutLine.resolve_undiscounted_unit_price calculations root info
         = Ok None
      /\ CheckoutLine.resolve_undiscounted_total_price calculations root info
         = Ok None)
  /\ declared_required CheckoutLine.fields "unit_price" = true
  /\ declared_required CheckoutLine.fields "total_price" = true
  /\ declared_required CheckoutLine.fields "undiscounted_unit_price" = true
  /\ declared_required CheckoutLine.fields "undiscounted_total_price" = true.
Proof.
  intros lines checkout_info manager found.
  assert (Htaxed :
    sync_event (context info) = false ->
    CheckoutLine.resolve_unit_price calculations root info
    = price_of_found_line
        (checkout_line_unit_price calculations manager checkout_info lines)
        found
    /\ CheckoutLine.resolve_total_price calculations root info
       = price_of_found_line
           (checkout_line_total calculations manager checkout_info lines)
           found).
  { intros Hsync.
    unfold CheckoutLine.resolve_unit_price, CheckoutLine.resolve_total_price,
      traced_resolver, prevent_sync_event_circular_query.
    rewrite Hsync. unfold load, get_plugin_manager_promise.
    rewrite Hcheckout. simpl.
    rewrite !for_line_info_first_match. split; reflexivity. }
  assert (Hunit :
    CheckoutLine.resolve_undiscounted_unit_price calculations root info
    = price_of_found_line
        (fun line_info =>
           calculate_undiscounted_base_line_unit_price calculations
             line_info (info_channel checkout_info))
        found).
  { unfold CheckoutLine.resolve_undiscounted_unit_price, load.
    rewrite Hcheckout. simpl.
    rewrite for_line_info_first_match. reflexivity. }
  assert (Htotal :
    CheckoutLine.resolve_undiscounted_total_price calculations root info
    = price_of_found_line
        (fun line_info =>
           calculate_undiscounted_base_line_total_price calculations
             line_info (info_channel checkout_info))
        found).
  { unfold CheckoutLine.resolve_undiscounted_total_price, load.
    rewrite Hcheckout. simpl.
    rewrite for_line_info_first_match. reflexivity. }
  split; [exact Htaxed|].
  split; [exact Hunit|].
  split; [exact Htotal|].
  split.
  - intros Hnone. apply first_line_with_pk_None in Hnone.
    fold lines in Hnone. fold found in Hnone.
    rewrite Hunit, Htotal, Hnone. simpl.
    split; [|split; reflexivity].
    intros Hsync. destruct (Htaxed Hsync) as [-> ->].
    rewrite Hnone. split; reflexivity.
  - repeat split; reflexivity.
Qed.

(** *** The guard against circular queries *)

(** The eight resolvers that carry [prevent_sync_event_circular_query]
    refuse to run while a synchronous event is served. *)
Lemma guarded_resolvers_refuse_sync_event
    (calculations : Calculations) (info : ResolveInfo)
    (Hsync : sync_event (context info) = true) :
  (forall root,
     CheckoutLine.resolve_unit_price calculations root info
     = Raise CircularSubscriptionSyncEvent)
  /\ (forall root,
        CheckoutLine.resolve_total_price calculations root info
        = Raise CircularSubscriptionSyncEvent)
  /\ (forall root,
        Checkout.resolve_total_price calculations root info
        = Raise CircularSubscriptionSyncEvent)
  /\ (forall root,
        Checkout.resolve_subtotal_price calculations root info
        = Raise CircularSubscriptionSyncEvent)
  /\ (forall root,
        Checkout.resolve_shipping_price calculations root info
        = Raise CircularSubscriptionSyncEvent)
  /\ (forall root,
        Checkout.resolve_shipping_methods root info
        = Raise CircularSubscriptionSyncEvent)
  /\ (forall root,
        Checkout.resolve_available_shipping_methods root info
        = Raise CircularSubscriptionSyncEvent)
  /\ (forall root,
        Checkout.resolve_available_payment_gateways root info
        = Raise CircularSubscriptionSyncEvent).
Proof.
  unfold CheckoutLine.resolve_unit_price, CheckoutLine.resolve_total_price,
    Checkout.resolve_total_price, Checkout.resolve_subtotal_price,
    Checkout.resolve_shipping_price, Checkout.resolve_shipping_methods,
    Checkout.resolve_available_shipping_methods,
    Checkout.resolve_available_payment_gateways,
    traced_resolver, prevent_sync_event_circular_query.
  rewrite Hsync. repeat split; reflexivity.
Qed.

(** The status resolvers and the balance resolver carry no guard: the event
    flag does not enter what they compute. *)
Lemma status_resolvers_ignore_sync_event
    (calculations : Calculations) (root : models.Checkout)
    (info : ResolveInfo) (flag : bool) :
  let info' :=
    mkResolveInfo
      (mkSaleorContext flag
         (AddressByIdLoader (context info))
         (CheckoutByTokenLoader (context info))
         (CheckoutInfoByCheckoutTokenLoader (context info))
         (CheckoutLinesInfoByCheckoutTokenLoader (context info))
         (TransactionItemsByCheckoutIDLoader (context info))
         (plugin_manager (context info))) in
  Checkout.resolve_authorize_status calculations root info'
  = Checkout.resolve_authorize_status calculations root info
  /\ Checkout.resolve_charge_status calculations root info'
     = Checkout.resolve_charge_status calculations root info
  /\ Checkout.resolve_total_balance calculations root info'
     = Checkout.resolve_total_balance calculations root info.
Proof.
  repeat split; reflexivity.
Qed.

(** C3, at the failing input: while a synchronous event is served, the
    guarded [Checkout.resolve_total_price] refuses to run, but
    [Checkout.resolve_authorize_status] and [Checkout.resolve_charge_status]
    on the same checkout run [fetch_checkout_data] and answer the statuses
    it computed. *)
Theorem status_resolvers_run_inside_sync_event :
  sync_event (context Examples.sync_info) = true
  /\ Checkout.resolve_total_price
       Examples.calculations Examples.root Examples.sync_info
     = Raise CircularSubscriptionSyncEvent
  /\ Checkout.resolve_authorize_status
       Examples.calculations Examples.root Examples.sync_info
     = Ok "full"
  /\ Checkout.resolve_charge_status
       Examples.calculations Examples.root Examples.sync_info
     = Ok "partial"
  /\ models.authorize_status Examples.root = "none"
  /\ models.charge_status Examples.root = "none".
Proof.
  repeat split; reflexivity.
Qed.

(** *** The theorems at work on the example shop *)

Lemma resolve_quantity_sums_lines_witness :
  Checkout.resolve_quantity Examples.root Examples.info = Ok 5
  /\ Checkout.resolve_quantity Examples.no_address Examples.info = Ok 0.
Proof.
  split.
  - exact (proj1 (resolve_quantity_sums_lines Examples.root Examples.info)).
  - apply (proj2 (resolve_quantity_sums_lines
                    Examples.no_address Examples.info)).
    reflexivity.
Defined.

Lemma stored_key_Some (k : Z) : 0 < k -> stored_key (Some k).
Proof. intros Hk k' [= <-]. exact Hk. Defined.

Lemma stored_key_None : stored_key None.
Proof. intros k' [=]. Defined.

Lemma dataloaders_choose_address_witness :
  fst (fst (fst (get_dataloaders_for_fetching_checkout_data
                   Examples.root Examples.info)))
  = Some (Ok (Some (mkAddress 3 "US")))
  /\ fst (fst (fst (get_dataloaders_for_fetching_checkout_data
                      Examples.billing_only Examples.info)))
     = Some (Ok (Some (mkAddress 4 "PL")))
  /\ fst (fst (fst (get_dataloaders_for_fetching_checkout_data
                      Examples.no_address Examples.info)))
     = None.
Proof.
  split; [|split].
  - exact (proj2 (dataloaders_choose_address Examples.root Examples.info
                    (stored_key_Some 3 eq_refl) (stored_key_Some 4 eq_refl))).
  - exact (proj2 (dataloaders_choose_address
                    Examples.billing_only Examples.info
                    stored_key_None (stored_key_Some 4 eq_refl))).
  - exact (proj2 (dataloaders_choose_address
                    Examples.no_address Examples.info
                    stored_key_None stored_key_None)).
Defined.


Lemma in_currency_example :
  in_currency "USD" Examples.transactions.
Proof. repeat constructor. Defined.

Lemma resolve_total_balance_charged_minus_total_witness :
  Checkout.resolve_total_balance
    Examples.calculations Examples.root Examples.info
  = Ok (Examples.usd (850 - 1150))
  /\ Checkout.resolve_total_balance
       Examples.calculations Examples.no_address Examples.info
     = Ok (Examples.usd 0).
Proof.
  split.
  - exact (proj1 (resolve_total_balance_charged_minus_total
                    Examples.calculations Examples.root Examples.info
                    (Some (mkAddress 3 "US")) Examples.lines
                    Examples.checkout_info Examples.manager
                    (Examples.taxed 0 1150)
                    eq_refl eq_refl eq_refl in_currency_example)).
  - exact (proj2 (resolve_total_balance_charged_minus_total
                    Examples.calculations Examples.no_address Examples.info
                    None [] Examples.checkout_info Examples.manager
                    (Examples.taxed (-5000) (-5000))
                    eq_refl eq_refl eq_refl (List.Forall_nil _))
                 eq_refl).
Defined.


Lemma line_price_resolvers_first_match_witness :
  CheckoutLine.resolve_unit_price
    Examples.calculations Examples.line2 Examples.info
  = Ok (Some (Examples.taxed 1000 1230))
  /\ CheckoutLine.resolve_total_price
       Examples.calculations Examples.line2 Examples.info
     = Ok (Some (Examples.taxed 3000 3690))
  /\ CheckoutLine.resolve_undiscounted_total_price
       Examples.calculations Examples.line2 Examples.info
     = Ok (Some (Examples.usd 3300))
  /\ CheckoutLine.resolve_unit_price
       Examples.calculations Examples.stray_line Examples.info
     = Ok None
  /\ CheckoutLine.resolve_undiscounted_unit_price
       Examples.calculations Examples.stray_line Examples.info
     = Ok None.
Proof.
  pose proof (line_price_resolvers_first_match
                Examples.calculations Examples.line2 Examples.info
                Examples.root eq_refl) as Hfound.
  pose proof (line_price_resolvers_first_match
                Examples.calculations Examples.stray_line Examples.info
                Examples.root eq_refl) as Hstray.
  cbv zeta in Hfound, Hstray.
  destruct Hfound as (Htaxed & _ & Htotal & _).
  destruct (Htaxed eq_refl) as [Hunit Hline].
  destruct Hstray as (Htaxed' & Hunit' & _).
  destruct (Htaxed' eq_refl) as [Hnone _].
  repeat split; assumption.
Defined.

End CheckoutProofs.

(** ** The exports of the transaction mutations package *)
Module TransactionMutationsProofs.
Import TransactionMutations.

(** C9: [__all__] lists exactly the six mutation classes, each once, every
    listed name is bound by an import of the module, and the listed names
    and the imported names are the same set. *)
Theorem all_exports_are_the_imports :
  __all__
  = [ "TransactionCreate"; "TransactionEventReport"; "TransactionInitialize";
      "TransactionProcess"; "TransactionRequestAction"; "TransactionUpdate" ]
  /\ length __all__ = 6%nat
  /\ NoDup __all__
  /\ Forall (fun exported => In exported bound_names) __all__
  /\ (forall n : string, In n __all__ <-> In n bound_names)
  /\ (list_to_set __all__ : gset string) = list_to_set bound_names.
Proof.
  assert (E : __all__ = bound_names) by reflexivity.
  split; [reflexivity|].
  split; [reflexivity|].
  split.
  { compute_done. }
  split.
  { rewrite <- E. apply List.Forall_forall. auto. }
  split.
  { intros n. rewrite E. reflexivity. }
  rewrite E. reflexivity.
Qed.

End TransactionMutationsProofs.

(** ** E-mail change confirmation *)
Module ConfirmEmailChangeProofs.
Import ConfirmEmailChange.

Lemma prefix_append (s rest : string) : String.prefix s (s ++ rest)%string = true.
Proof.
  induction s as [|a s IH]; simpl.
  - destruct rest; reflexivity.
  - destruct (Ascii.ascii_dec a a) as [_|N]; [exact IH|contradiction].
Qed.

Lemma str_in_prefix (s rest : string) : str_in s (s ++ rest)%string = true.
Proof.
  assert (Hunfold : forall needle haystack,
            str_in needle haystack = true
            <-> String.prefix needle haystack = true
                \/ match haystack with
                   | EmptyString => False
                   | String _ tail => str_in needle tail = true
                   end).
  { intros needle [|a tail]; cbn [str_in];
      rewrite orb_true_iff; intuition discriminate. }
  apply Hunfold. left. apply prefix_append.
Qed.

Lemma email_in_search_document (u : User) :
  str_in (email u) (prepare_user_search_document_value u) = true.
Proof.
  unfold prepare_user_search_document_value. apply str_in_prefix.
Qed.

Lemma email_taken_In (st : State) (address : string) :
  email_taken st address = true
  <-> exists other, In other (users st) /\ email other = address.
Proof.
  unfold email_taken. rewrite existsb_exists.
  split; intros (other & Hin & He); exists other; split; auto.
  - apply String.eqb_eq, He.
  - apply String.eqb_eq, He.
Qed.

Lemma find_save (u : User) (rows : list User) (old : User) :
  find (fun row => user_pk row =? user_pk u) rows = Some old ->
  find (fun row => user_pk row =? user_pk u) (save u rows) = Some u.
Proof.
  unfold save.
  induction rows as [|row rows IH]; simpl; [discriminate|].
  destruct (user_pk row =? user_pk u) eqn:E; simpl.
  - rewrite Z.eqb_refl. reflexivity.
  - rewrite E. exact IH.
Qed.

(** C7: called with an unexpired token whose [new_email] is the e-mail of
    another stored user, [confirmEmailChange] answers no user and exactly
    one error, with code [UNIQUE], field [newEmail] and message
    "Email is used by other user."; nothing is stored, so the requesting
    user's e-mail is what it was. *)
Theorem existing_email_is_refused
    (now : Z) (st : State) (requestor : User) (token : Token) (other : User)
    (Hunexpired : now < exp token)
    (Hother : In other (users st))
    (Hdistinct : user_pk other <> user_pk requestor)
    (Hemail : email other = new_email (payload token)) :
  let (st', response) := confirm_email_change now st requestor token in
  user response = None
  /\ errors response
     = [ mkAccountError "UNIQUE" "Email is used by other user." "newEmail" ]
  /\ st' = st
  /\ get_user st' (user_pk requestor) = get_user st (user_pk requestor).
Proof.
  unfold confirm_email_change.
  destruct (Z.leb_spec (exp token) now) as [Hexpired|_]; [lia|].
  assert (Htaken : email_taken st (new_email (payload token)) = true).
  { apply email_taken_In. exists other. auto. }
  rewrite Htaken. repeat split; reflexivity.
Qed.

(** C8: called by a stored user with an unexpired token whose [new_email]
    no stored user has, [confirmEmailChange] answers that user with the
    e-mail set to [new_email] and no error; the stored user has the new
    e-mail, which occurs in the stored search document; and each of
    [assign_user_gift_cards] and [match_orders_with_new_user] receives one
    more call, with that user. *)
Theorem email_is_updated
    (now : Z) (st : State) (requestor : User) (token : Token)
    (Hunexpired : now < exp token)
    (Hstored : get_user st (user_pk requestor) = Some requestor)
    (Hfree : email_taken st (new_email (payload token)) = false) :
  let (st', response) := confirm_email_change now st requestor token in
  exists updated,
    response = mkResponse (Some updated) []
    /\ user_pk updated = user_pk requestor
    /\ email updated = new_email (payload token)
    /\ get_user st' (user_pk requestor) = Some updated
    /\ str_in (new_email (payload token)) (search_document updated) = true
    /\ assign_user_gift_cards_calls st'
       = (assign_user_gift_cards_calls st ++ [updated])%list
    /\ match_orders_with_new_user_calls st'
       = (match_orders_with_new_user_calls st ++ [updated])%list.
Proof.
  unfold confirm_email_change.
  destruct (Z.leb_spec (exp token) now) as [Hexpired|_]; [lia|].
  rewrite Hfree. simpl.
  eexists. split; [reflexivity|]. simpl.
  split; [reflexivity|].
  split; [reflexivity|].
  split.
  { unfold get_user in *. simpl.
    match goal with
    | |- find _ (save ?u _) = _ =>
        exact (find_save u (users st) requestor Hstored)
    end. }
  split.
  { match goal with
    | |- str_in _ (prepare_user_search_document_value ?u) = true =>
        exact (email_in_search_document u)
    end. }
  split; reflexivity.
Qed.

Lemma existing_email_is_refused_witness :
  user (snd (confirm_email_change 60 AccountExamples.database
               AccountExamples.customer_user
               AccountExamples.existing_email_token))
  = None
  /\ errors (snd (confirm_email_change 60 AccountExamples.database
                    AccountExamples.customer_user
                    AccountExamples.existing_email_token))
     = [ mkAccountError "UNIQUE" "Email is used by other user." "newEmail" ]
  /\ fst (confirm_email_change 60 AccountExamples.database
            AccountExamples.customer_user
            AccountExamples.existing_email_token)
     = AccountExamples.database.
Proof.
  pose proof (existing_email_is_refused 60 AccountExamples.database
                AccountExamples.customer_user
                AccountExamples.existing_email_token
                AccountExamples.staff_user
                eq_refl (or_intror (or_introl eq_refl))
                (fun E => Z.neq_succ_diag_l 1 E) eq_refl) as H.
  destruct (confirm_email_change 60 AccountExamples.database
              AccountExamples.customer_user
              AccountExamples.existing_email_token)
    as [st' response].
  destruct H as (Huser & Herrors & Hstate & _).
  simpl. auto.
Defined.

Lemma email_is_updated_witness :
  exists updated,
    user (snd (confirm_email_change 60 AccountExamples.database
                 AccountExamples.customer_user AccountExamples.update_token))
    = Some updated
    /\ email updated = "new_email@example.com"
    /\ assign_user_gift_cards_calls
         (fst (confirm_email_change 60 AccountExamples.database
                 AccountExamples.customer_user AccountExamples.update_token))
       = [updated].
Proof.
  pose proof (email_is_updated 60 AccountExamples.database
                AccountExamples.customer_user AccountExamples.update_token
                eq_refl eq_refl eq_refl) as H.
  destruct (confirm_email_change 60 AccountExamples.database
              AccountExamples.customer_user AccountExamples.update_token)
    as [st' response].
  destruct H as (updated & -> & _ & Hemail & _ & _ & Hcalls & _).
  exists updated. simpl. auto.
Defined.

End ConfirmEmailChangeProofs.

(** ** Further properties of the checkout resolvers *)
Module CheckoutFieldsProofs.
Import Prices CheckoutTypes CheckoutSpec CheckoutFields PricesFacts CheckoutProofs.

(** *** Addresses *)

(** X1: the address promise [get_dataloaders_for_fetching_checkout_data]
    returns for the price calculations is what [resolve_shipping_address]
    answers for the [shippingAddress] field when that is not [None], and what
    [resolve_billing_address] answers for [billingAddress] otherwise. *)
Theorem price_address_is_shipping_else_billing_field
    (root : models.Checkout) (info : ResolveInfo) :
  fst (fst (fst (get_dataloaders_for_fetching_checkout_data root info)))
  = match resolve_shipping_address root info with
    | Some shipping => Some shipping
    | None => resolve_billing_address root info
    end.
Proof.
  rewrite address_of_dataloaders.
  unfold resolve_shipping_address, resolve_billing_address.
  destruct (models.shipping_address_id root) as [s|]; simpl.
  - destruct (s =? 0); simpl; [|reflexivity].
    destruct (models.billing_address_id root) as [b|]; simpl; [|reflexivity].
    destruct (b =? 0); reflexivity.
  - destruct (models.billing_address_id root) as [b|]; simpl; [|reflexivity].
    destruct (b =? 0); reflexivity.
Qed.

(** *** Quantity *)

Lemma total_quantity_bounds (lines : list CheckoutLineInfo) :
  Forall (fun line_info => 0 <= models.quantity (line line_info)) lines ->
  0 <= total_quantity lines
  /\ Forall (fun line_info =>
               models.quantity (line line_info) <= total_quantity lines)
            lines.
Proof.
  unfold total_quantity.
  induction 1 as [|line_info rest Hq _ [IHnonneg IHeach]]; simpl.
  - split; [lia|constructor].
  - split; [lia|]. constructor; [lia|].
    eapply Forall_impl; [exact IHeach|]. simpl. intros; lia.
Qed.

(** X2: when no loaded line has a negative quantity, [resolve_quantity]
    answers a number that is not negative and not less than the quantity of
    any single line. *)
Theorem resolve_quantity_bounds
    (root : models.Checkout) (info : ResolveInfo)
    (Hlines :
       Forall (fun line_info => 0 <= models.quantity (line line_info))
         (CheckoutLinesInfoByCheckoutTokenLoader (context info)
            (models.token root))) :
  exists total,
    Checkout.resolve_quantity root info = Ok total
    /\ 0 <= total
    /\ Forall (fun line_info => models.quantity (line line_info) <= total)
         (CheckoutLinesInfoByCheckoutTokenLoader (context info)
            (models.token root)).
Proof.
  eexists. split.
  - unfold Checkout.resolve_quantity, load. rewrite then_Ok.
    rewrite py_sum_quantities. reflexivity.
  - apply total_quantity_bounds, Hlines.
Qed.

(** *** The balance *)

Lemma add_charges_checks_currency
    (transactions : list TransactionItem) (total_charged : Money) :
  Checkout.add_charges total_charged transactions
  = if all_in_currency (currency total_charged) transactions
    then Ok (mkMoney (amount total_charged + charged_plus_pending transactions)
                     (currency total_charged))
    else Raise ValueError.
Proof.
  revert total_charged.
  induction transactions as [|transaction rest IH]; intros total_charged.
  - simpl. rewrite Z.add_0_r. destruct total_charged; reflexivity.
  - cbn [Checkout.add_charges all_in_currency forallb charged_plus_pending foldr].
    unfold Money_add.
    destruct (String.eqb (currency (amount_charged transaction))
                         (currency total_charged)) eqn:Echarged;
      [|reflexivity].
    cbn [mbind result_bind currency amount].
    destruct (String.eqb (currency (amount_charge_pending transaction))
                         (currency total_charged)) eqn:Epending;
      [|reflexivity].
    cbn [mbind result_bind andb]. rewrite IH. cbn [currency amount].
    fold (all_in_currency (currency total_charged) rest).
    destruct (all_in_currency (currency total_charged) rest); [|reflexivity].
    unfold charged_plus_pending. f_equal. f_equal. lia.
Qed.

Lemma all_in_currency_Permutation (c : string)
    (transactions transactions' : list TransactionItem) :
  transactions ≡ₚ transactions' ->
  all_in_currency c transactions = all_in_currency c transactions'.
Proof.
  unfold all_in_currency.
  set (ok := fun transaction : TransactionItem => _).
  induction 1 as [|x l l' _ IH|x y l|l l' l'' _ IH1 _ IH2]; simpl.
  - reflexivity.
  - rewrite IH. reflexivity.
  - destruct (ok x), (ok y); reflexivity.
  - rewrite IH1. exact IH2.
Qed.

Lemma charged_plus_pending_Permutation
    (transactions transactions' : list TransactionItem) :
  transactions ≡ₚ transactions' ->
  charged_plus_pending transactions = charged_plus_pending transactions'.
Proof.
  unfold charged_plus_pending.
  induction 1 as [|x l l' _ IH|x y l|l l' l'' _ IH1 _ IH2]; simpl; lia.
Qed.

Lemma total_balance_unfolded (calculations : Calculations)
    (root : models.Checkout) (info : ResolveInfo)
    (address : option Address) (lines : list CheckoutLineInfo)
    (checkout_info : CheckoutInfo) (manager : PluginsManager) :
  Promise_all_dataloaders
    (get_dataloaders_for_fetching_checkout_data root info)
  = Ok (address, lines, checkout_info, manager) ->
  Checkout.resolve_total_balance calculations root info
  = (taxed_total ← calculate_checkout_total_with_gift_cards calculations
                     manager checkout_info lines address;
     checkout_total ←
       Prices.max taxed_total (zero_taxed_money (models.currency root));
     total_charged ←
       Checkout.add_charges (zero_money (models.currency root))
         (TransactionItemsByCheckoutIDLoader (context info)
            (models.pk_of_checkout root));
     Money_sub total_charged (gross checkout_total)).
Proof.
  intros Hdata.
  unfold Checkout.resolve_total_balance, Promise_all_dataloaders_with.
  rewrite Hdata. reflexivity.
Qed.

(** X3: [resolve_total_balance] does not depend on the order in which the
    transactions loader lists the transactions: with the lists permuted it
    answers the same balance, or fails in the same way. *)
Theorem total_balance_ignores_transaction_order
    (calculations : Calculations) (root : models.Checkout) (info : ResolveInfo)
    (loader : Z -> list TransactionItem)
    (Hsame : forall key,
       loader key ≡ₚ TransactionItemsByCheckoutIDLoader (context info) key) :
  Checkout.resolve_total_balance calculations root
    (with_transactions info loader)
  = Checkout.resolve_total_balance calculations root info.
Proof.
  destruct (all_dataloaders root info) as [address Hall].
  rewrite (total_balance_unfolded _ _ info _ _ _ _ Hall).
  rewrite (total_balance_unfolded _ _ (with_transactions info loader)
             _ _ _ _ Hall).
  destruct (calculate_checkout_total_with_gift_cards _ _ _ _ _)
    as [taxed_total|e]; [|reflexivity].
  cbn [mbind result_bind].
  destruct (Prices.max _ _) as [checkout_total|e]; [|reflexivity].
  cbn [mbind result_bind].
  rewrite !add_charges_checks_currency. cbn [with_transactions context
    TransactionItemsByCheckoutIDLoader].
  rewrite (all_in_currency_Permutation _ _ _ (Hsame _)).
  rewrite (charged_plus_pending_Permutation _ _ (Hsame _)).
  reflexivity.
Qed.

(** X4: when the checkout total is computed and is in the checkout's
    currency, but an amount of some transaction is in another currency,
    [resolve_total_balance] fails with [ValueError]. *)
Theorem total_balance_rejects_foreign_currency
    (calculations : Calculations) (root : models.Checkout) (info : ResolveInfo)
    (address : option Address) (lines : list CheckoutLineInfo)
    (checkout_info : CheckoutInfo) (manager : PluginsManager)
    (taxed_total : TaxedMoney)
    (Hdata : Promise_all_dataloaders
               (get_dataloaders_for_fetching_checkout_data root info)
             = Ok (address, lines, checkout_info, manager))
    (Htotal : calculate_checkout_total_with_gift_cards calculations
                manager checkout_info lines address
              = Ok taxed_total)
    (Hcurrency : currency (gross taxed_total) = models.currency root)
    (Hforeign :
       all_in_currency (models.currency root)
         (TransactionItemsByCheckoutIDLoader (context info)
            (models.pk_of_checkout root))
       = false) :
  Checkout.resolve_total_balance calculations root info = Raise ValueError.
Proof.
  rewrite (total_balance_unfolded _ _ _ _ _ _ _ Hdata), Htotal.
  cbn [mbind result_bind].
  rewrite (max_zero _ _ Hcurrency). cbn [mbind result_bind].
  rewrite add_charges_checks_currency. cbn [zero_money currency].
  rewrite Hforeign. reflexivity.
Qed.

(** X5: when the total and all transactions are in the checkout's currency,
    the balance [resolve_total_balance] answers never exceeds the charged plus
    pending sum, equals that sum exactly when the total's gross is not
    positive, and is zero exactly when the sum equals the clamped gross. *)
Theorem total_balance_bounded_by_charged
    (calculations : Calculations) (root : models.Checkout) (info : ResolveInfo)
    (address : option Address) (lines : list CheckoutLineInfo)
    (checkout_info : CheckoutInfo) (manager : PluginsManager)
    (taxed_total : TaxedMoney)
    (Hdata : Promise_all_dataloaders
               (get_dataloaders_for_fetching_checkout_data root info)
             = Ok (address, lines, checkout_info, manager))
    (Htotal : calculate_checkout_total_with_gift_cards calculations
                manager checkout_info lines address
              = Ok taxed_total)
    (Hcurrency : currency (gross taxed_total) = models.currency root)
    (Htransactions :
       in_currency (models.currency root)
         (TransactionItemsByCheckoutIDLoader (context info)
            (models.pk_of_checkout root))) :
  exists balance,
    Checkout.resolve_total_balance calculations root info = Ok balance
    /\ currency balance = models.currency root
    /\ amount balance
       <= charged_plus_pending
            (TransactionItemsByCheckoutIDLoader (context info)
               (models.pk_of_checkout root))
    /\ (amount balance
        = charged_plus_pending
            (TransactionItemsByCheckoutIDLoader (context info)
               (models.pk_of_checkout root))
        <-> amount (gross taxed_total) <= 0)
    /\ (amount balance = 0
        <-> charged_plus_pending
              (TransactionItemsByCheckoutIDLoader (context info)
                 (models.pk_of_checkout root))
            = Z.max 0 (amount (gross taxed_total))).
Proof.
  eexists. split.
  - rewrite (total_balance_unfolded _ _ _ _ _ _ _ Hdata), Htotal.
    cbn [mbind result_bind].
    rewrite (max_zero _ _ Hcurrency). cbn [mbind result_bind].
    rewrite (add_charges_in_currency (models.currency root))
      by (auto; reflexivity).
    cbn [mbind result_bind].
    rewrite Money_sub_same
      by (simpl; apply clamp_gross_currency, Hcurrency).
    reflexivity.
  - cbn [currency amount zero_money]. unfold clamp.
    destruct (Z.ltb_spec (amount (gross taxed_total)) 0);
      cbn [gross zero_taxed_money zero_money amount];
      repeat split; intros; lia.
Qed.

(** *** Failures of the total *)

(** X6: on an ordinary request [Checkout.resolve_total_price] passes a
    failure of the calculation on unchanged, and fails with [ValueError]
    when the calculated total is not in the checkout's currency. *)
Theorem total_price_propagates_failures
    (calculations : Calculations) (root : models.Checkout) (info : ResolveInfo)
    (address : option Address) (lines : list CheckoutLineInfo)
    (checkout_info : CheckoutInfo) (manager : PluginsManager)
    (Hsync : sync_event (context info) = false)
    (Hdata : Promise_all_dataloaders
               (get_dataloaders_for_fetching_checkout_data root info)
             = Ok (address, lines, checkout_info, manager)) :
  (forall e,
     calculate_checkout_total_with_gift_cards calculations
       manager checkout_info lines address = Raise e ->
     Checkout.resolve_total_price calculations root info = Raise e)
  /\ (forall taxed_total,
        calculate_checkout_total_with_gift_cards calculations
          manager checkout_info lines address = Ok taxed_total ->
        currency (gross taxed_total) <> models.currency root ->
        Checkout.resolve_total_price calculations root info
        = Raise ValueError).
Proof.
  rewrite (total_price_unfolded _ _ _ Hsync), Hdata. cbn [mbind result_bind].
  split.
  - intros e ->. reflexivity.
  - intros taxed_total -> Hother. cbn [mbind result_bind].
    unfold Prices.max, TaxedMoney_lt, Money_lt.
    cbn [gross zero_taxed_money zero_money currency].
    destruct (String.eqb_spec (currency (gross taxed_total))
                              (models.currency root)); [contradiction|].
    reflexivity.
Qed.

(** *** Line prices *)

(** X7: for a line whose checkout the checkout loader does not hold, the two
    undiscounted line price resolvers fail with [AttributeError], and so do
    the two taxed ones on an ordinary request. *)
Theorem line_prices_fail_without_checkout
    (calculations : Calculations) (root : models.CheckoutLine)
    (info : ResolveInfo)
    (Hmissing : CheckoutByTokenLoader (context info) (models.checkout_id root)
                = None) :
  CheckoutLine.resolve_undiscounted_unit_price calculations root info
  = Raise AttributeError
  /\ CheckoutLine.resolve_undiscounted_total_price calculations root info
     = Raise AttributeError
  /\ (sync_event (context info) = false ->
      CheckoutLine.resolve_unit_price calculations root info
      = Raise AttributeError
      /\ CheckoutLine.resolve_total_price calculations root info
         = Raise AttributeError).
Proof.
  unfold CheckoutLine.resolve_undiscounted_unit_price,
    CheckoutLine.resolve_undiscounted_total_price,
    CheckoutLine.resolve_unit_price, CheckoutLine.resolve_total_price,
    traced_resolver, prevent_sync_event_circular_query, load,
    get_plugin_manager_promise.
  rewrite Hmissing.
  split; [reflexivity|]. split; [reflexivity|].
  intros ->. split; reflexivity.
Qed.

Lemma first_line_with_pk_found (key : Z) (lines : list CheckoutLineInfo)
    (line_info : CheckoutLineInfo) :
  In line_info lines ->
  models.pk (line line_info) = key ->
  exists found,
    first_line_with_pk key lines = Some found
    /\ In found lines
    /\ models.pk (line found) = key.
Proof.
  unfold first_line_with_pk.
  induction lines as [|head rest IH]; simpl; [contradiction|].
  intros Hin Hkey.
  destruct (Z.eqb_spec (models.pk (line head)) key) as [E|N].
  - exists head. auto.
  - destruct Hin as [->|Hin]; [contradiction|].
    destruct (IH Hin Hkey) as (found & Hfound & Hmem & Hk).
    exists found. auto.
Qed.

Lemma price_of_present_line {A} (call : CheckoutLineInfo -> result A)
    (key : Z) (lines : list CheckoutLineInfo) (line_info : CheckoutLineInfo) :
  In line_info lines ->
  models.pk (line line_info) = key ->
  (forall candidate,
     In candidate lines -> models.pk (line candidate) = key ->
     exists price, call candidate = Ok price) ->
  exists price,
    price_of_found_line call (first_line_with_pk key lines) = Ok (Some price).
Proof.
  intros Hin Hkey Hcall.
  destruct (first_line_with_pk_found key lines line_info Hin Hkey)
    as (found & -> & Hmem & Hk).
  destruct (Hcall found Hmem Hk) as [price Hprice].
  exists price. simpl. rewrite Hprice. reflexivity.
Qed.

(** X8: for a line whose checkout is loaded, if some loaded line of that
    checkout has the resolved line's primary key and the undiscounted
    calculations succeed on every loaded line with that key, then
    [resolve_undiscounted_unit_price] and [resolve_undiscounted_total_price]
    answer a price, not [None]. *)
Theorem undiscounted_line_prices_present
    (calculations : Calculations) (root : models.CheckoutLine)
    (info : ResolveInfo) (checkout : models.Checkout)
    (line_info : CheckoutLineInfo)
    (Hcheckout : CheckoutByTokenLoader (context info) (models.checkout_id root)
                 = Some checkout)
    (Hloaded :
       In line_info
          (CheckoutLinesInfoByCheckoutTokenLoader (context info)
             (models.token checkout)))
    (Hkey : models.pk (line line_info) = models.pk root)
    (Hunit : forall candidate,
       In candidate
          (CheckoutLinesInfoByCheckoutTokenLoader (context info)
             (models.token checkout)) ->
       models.pk (line candidate) = models.pk root ->
       exists price,
         calculate_undiscounted_base_line_unit_price calculations candidate
           (info_channel
              (CheckoutInfoByCheckoutTokenLoader (context info)
                 (models.token checkout)))
         = Ok price)
    (Htotal : forall candidate,
       In candidate
          (CheckoutLinesInfoByCheckoutTokenLoader (context info)
             (models.token checkout)) ->
       models.pk (line candidate) = models.pk root ->
       exists price,
         calculate_undiscounted_base_line_total_price calculations candidate
           (info_channel
              (CheckoutInfoByCheckoutTokenLoader (context info)
                 (models.token checkout)))
         = Ok price) :
  (exists price,
     CheckoutLine.resolve_undiscounted_unit_price calculations root info
     = Ok (Some price))
  /\ (exists price,
        CheckoutLine.resolve_undiscounted_total_price calculations root info
        = Ok (Some price)).
Proof.
  split.
  - destruct (price_of_present_line _ _ _ _ Hloaded Hkey Hunit)
      as [price Hprice].
    exists price. rewrite <- Hprice.
    unfold CheckoutLine.resolve_undiscounted_unit_price, load.
    rewrite Hcheckout. simpl.
    rewrite for_line_info_first_match. reflexivity.
  - destruct (price_of_present_line _ _ _ _ Hloaded Hkey Htotal)
      as [price Hprice].
    exists price. rewrite <- Hprice.
    unfold CheckoutLine.resolve_undiscounted_total_price, load.
    rewrite Hcheckout. simpl.
    rewrite for_line_info_first_match. reflexivity.
Qed.

(** *** Shipping *)

Lemma any_map_true {A} (f : A -> bool) (xs : list A) :
  any (map f xs) = true <-> exists x, In x xs /\ f x = true.
Proof.
  unfold any. rewrite existsb_exists. split.
  - intros (b & Hin & Hb). apply in_map_iff in Hin.
    destruct Hin as (x & <- & Hx). exists x. auto.
  - intros (x & Hx & Hf). exists (f x). split; [|exact Hf].
    apply in_map_iff. exists x. auto.
Qed.

(** X9: [resolve_is_shipping_required] answers [True] exactly when the
    product type loaded for the product of some loaded line requires
    shipping; for a checkout without lines it answers [False]. *)
Theorem is_shipping_required_iff_some_line
    (ProductTypeByProductIdLoader : SaleorContext -> Z -> ProductType)
    (root : models.Checkout) (info : ResolveInfo) :
  exists answer,
    resolve_is_shipping_required ProductTypeByProductIdLoader root info
    = Ok answer
    /\ (answer = true
        <-> exists line_info,
              In line_info
                 (CheckoutLinesInfoByCheckoutTokenLoader (context info)
                    (models.token root))
              /\ is_shipping_required
                   (ProductTypeByProductIdLoader (context info)
                      (product_id line_info))
                 = true)
    /\ (CheckoutLinesInfoByCheckoutTokenLoader (context info)
          (models.token root) = [] ->
        answer = false).
Proof.
  set (requires := fun line_info : CheckoutLineInfo =>
         is_shipping_required
           (ProductTypeByProductIdLoader (context info) (product_id line_info))).
  exists (any (map requires
                 (CheckoutLinesInfoByCheckoutTokenLoader (context info)
                    (models.token root)))).
  split; [|split].
  - unfold resolve_is_shipping_required, load, load_many.
    rewrite !then_Ok. rewrite !map_map. reflexivity.
  - apply (any_map_true requires).
  - intros ->. reflexivity.
Qed.

(** X10: when, for every loaded line, the product type loaded by the line's
    product is the one loaded by the line's variant, the checkout requires
    shipping exactly when [CheckoutLine.resolve_requires_shipping] answers
    [True] for one of its lines. *)
Theorem checkout_requires_shipping_iff_a_line_does
    (ProductTypeByProductIdLoader ProductTypeByVariantIdLoader
       : SaleorContext -> Z -> ProductType)
    (root : models.Checkout) (info : ResolveInfo)
    (Hagree : forall line_info,
       In line_info
          (CheckoutLinesInfoByCheckoutTokenLoader (context info)
             (models.token root)) ->
       ProductTypeByProductIdLoader (context info) (product_id line_info)
       = ProductTypeByVariantIdLoader (context info)
           (models.variant_id (line line_info))) :
  resolve_is_shipping_required ProductTypeByProductIdLoader root info = Ok true
  <-> exists line_info,
        In line_info
           (CheckoutLinesInfoByCheckoutTokenLoader (context info)
              (models.token root))
        /\ CheckoutLine_resolve_requires_shipping ProductTypeByVariantIdLoader
             (line line_info) info
           = Ok true.
Proof.
  unfold resolve_is_shipping_required, CheckoutLine_resolve_requires_shipping,
    load, load_many.
  rewrite !then_Ok, !map_map.
  split.
  - intros [= Hany].
    apply (any_map_true
             (fun line_info : CheckoutLineInfo =>
                is_shipping_required
                  (ProductTypeByProductIdLoader (context info)
                     (product_id line_info)))) in Hany.
    destruct Hany as (line_info & Hin & Hreq).
    exists line_info. split; [exact Hin|].
    rewrite then_Ok, <- (Hagree _ Hin), Hreq. reflexivity.
  - intros (line_info & Hin & Hreq). rewrite then_Ok in Hreq.
    injection Hreq as Hreq. f_equal.
    apply (any_map_true
             (fun line_info : CheckoutLineInfo =>
                is_shipping_required
                  (ProductTypeByProductIdLoader (context info)
                     (product_id line_info)))).
    exists line_info. split; [exact Hin|].
    rewrite (Hagree _ Hin). exact Hreq.
Qed.

(** X11: [resolve_shipping_method] answers a shipping method exactly when
    [resolve_delivery_method] answers that same method, which
    [DeliveryMethod.resolve_type] then types as [ShippingMethod]; when the
    delivery method is typed [Warehouse], [resolve_shipping_method] answers
    [None]. *)
Theorem shipping_method_is_delivery_method
    (delivery_method : CheckoutInfo -> option DeliveryMethodInstance)
    (root : models.Checkout) (info : ResolveInfo) :
  (forall method,
     resolve_shipping_method delivery_method root info = Ok (Some method)
     <-> resolve_delivery_method delivery_method root info
         = Ok (Some (ShippingMethodInstance method)))
  /\ (forall instance,
        resolve_delivery_method delivery_method root info = Ok (Some instance) ->
        (DeliveryMethod_resolve_type instance = ShippingMethodType
         <-> exists method,
               resolve_shipping_method delivery_method root info
               = Ok (Some method))
        /\ (DeliveryMethod_resolve_type instance = WarehouseType
            <-> resolve_shipping_method delivery_method root info = Ok None))
  /\ (resolve_delivery_method delivery_method root info = Ok None ->
      resolve_shipping_method delivery_method root info = Ok None).
Proof.
  unfold resolve_shipping_method, resolve_delivery_method, load.
  rewrite !then_Ok.
  destruct (delivery_method _) as [[method|warehouse]|]; simpl.
  - split; [|split].
    + intros m. split; intros [= ->]; reflexivity.
    + intros instance [= <-]. simpl. split; split; try discriminate; eauto.
    + discriminate.
  - split; [|split].
    + intros m. split; discriminate.
    + intros instance [= <-]. simpl.
      split; split; try discriminate; auto.
      intros [m Hm]. discriminate.
    + discriminate.
  - split; [|split].
    + intros m. split; discriminate.
    + discriminate.
    + reflexivity.
Qed.

(** *** Stock reservations *)

Lemma min_from_least (least : Z) (xs : list Z) :
  (min_from least xs = least \/ In (min_from least xs) xs)
  /\ min_from least xs <= least
  /\ Forall (fun x => min_from least xs <= x) xs.
Proof.
  revert least. induction xs as [|x rest IH]; intros least; simpl.
  - split; [auto|]. split; [lia|constructor].
  - destruct (IH (if x <? least then x else least)) as (Hmem & Hle & Hall).
    destruct (Z.ltb_spec x least) as [Hlt|Hge].
    + split; [|split].
      * destruct Hmem as [->|Hin]; auto.
      * lia.
      * constructor; [lia|exact Hall].
    + split; [|split].
      * destruct Hmem as [->|Hin]; auto.
      * lia.
      * constructor; [lia|exact Hall].
Qed.

Lemma py_min_least (xs : list Z) :
  xs <> [] ->
  exists least,
    py_min xs = Ok least /\ In least xs /\ Forall (fun x => least <= x) xs.
Proof.
  destruct xs as [|x rest]; [contradiction|]. intros _.
  destruct (min_from_least x rest) as (Hmem & Hle & Hall).
  exists (min_from x rest). split; [reflexivity|]. split.
  - simpl. destruct Hmem as [->|Hin]; auto.
  - constructor; assumption.
Qed.

(** X12: with the site loaded, [resolve_stock_reservation_expires] answers
    [None] when reservation is not enabled or the checkout has no
    reservation; otherwise it answers the [reserved_until] of one of the
    checkout's reservations that no other reservation's precedes. *)
Theorem stock_reservation_expires_is_oldest
    (StocksReservationsByCheckoutTokenLoader :
       SaleorContext -> Z -> list Reservation)
    (Site SiteSettings : Type) (settings : Site -> SiteSettings)
    (get_site_promise : SaleorContext -> Promise Site)
    (is_reservation_enabled : SiteSettings -> bool)
    (root : models.Checkout) (info : ResolveInfo) (site : Site)
    (Hsite : get_site_promise (context info) = Ok site) :
  let expires :=
    resolve_stock_reservation_expires StocksReservationsByCheckoutTokenLoader
      Site SiteSettings settings get_site_promise is_reservation_enabled
      root info in
  let reservations :=
    StocksReservationsByCheckoutTokenLoader (context info) (models.token root) in
  (is_reservation_enabled (settings site) = false -> expires = Ok None)
  /\ (reservations = [] -> expires = Ok None)
  /\ (is_reservation_enabled (settings site) = true ->
      reservations <> [] ->
      exists oldest,
        expires = Ok (Some oldest)
        /\ In oldest (map reserved_until reservations)
        /\ Forall (fun reservation => oldest <= reserved_until reservation)
             reservations).
Proof.
  intros expires reservations. subst expires.
  unfold resolve_stock_reservation_expires, traced_resolver,
    load_site_callback, load.
  rewrite Hsite, then_Ok. fold reservations.
  split; [|split].
  - intros ->. reflexivity.
  - intros ->. destruct (is_reservation_enabled _); reflexivity.
  - intros -> Hsome. cbn [negb]. rewrite then_Ok.
    destruct (py_min_least (map reserved_until reservations))
      as (oldest & Hmin & Hin & Hall).
    { destruct reservations; [contradiction|discriminate]. }
    exists oldest. split; [|split].
    + destruct reservations as [|r rs]; [contradiction|].
      change (py_min (map reserved_until (r :: rs))
              ≫= (fun least => mret (Some least))
              = Ok (Some oldest)).
      rewrite Hmin. reflexivity.
    + exact Hin.
    + apply List.Forall_forall. intros reservation Hr.
      rewrite List.Forall_forall in Hall. apply Hall.
      apply in_map. exact Hr.
Qed.

(** *** Tax display *)

Lemma next_or_None_filter {A} (test : A -> bool) (xs : list A) :
  next_or_None test xs = head (List.filter test xs).
Proof.
  induction xs as [|x rest IH]; simpl; [reflexivity|].
  destruct (test x); [reflexivity|exact IH].
Qed.

(** X13: [resolve_display_gross_prices] hands [get_display_gross_prices] the
    tax configuration of the checkout's channel and the first of that
    configuration's country exceptions whose country is the checkout's;
    exceptions for other countries play no part, and without an exception
    for the country it hands over [None]. *)
Theorem display_gross_prices_first_exception
    (TaxConfigurationByChannelId : SaleorContext -> Z -> TaxConfiguration)
    (TaxConfigurationPerCountryByTaxConfigurationIDLoader :
       SaleorContext -> Z -> list TaxConfigurationPerCountry)
    (get_country : models.Checkout -> string)
    (get_display_gross_prices :
       TaxConfiguration -> option TaxConfigurationPerCountry -> bool)
    (root : models.Checkout) (info : ResolveInfo) :
  resolve_display_gross_prices TaxConfigurationByChannelId
    TaxConfigurationPerCountryByTaxConfigurationIDLoader
    get_country get_display_gross_prices root info
  = Ok (get_display_gross_prices
          (TaxConfigurationByChannelId (context info)
             (channel_pk (models.channel root)))
          (head
             (List.filter
                (fun exception =>
                   String.eqb (country_code exception) (get_country root))
                (TaxConfigurationPerCountryByTaxConfigurationIDLoader
                   (context info)
                   (tax_configuration_id
                      (TaxConfigurationByChannelId (context info)
                         (channel_pk (models.channel root)))))))).
Proof.
  unfold resolve_display_gross_prices, load. rewrite !then_Ok.
  rewrite next_or_None_filter. reflexivity.
Qed.

(** *** Metadata *)

(** X14: for a checkout with stored metadata, [resolve_private_metafield]
    and [resolve_private_metafields] fail with the privilege check's failure
    whenever the check refuses the requestor, and answer from the private
    metadata only when it passes; for a checkout without stored metadata
    they answer the empty dict without checking. *)
Theorem private_metafields_need_privilege
    (CheckoutMetadataByCheckoutIdLoader :
       SaleorContext -> Z -> option MetadataStorage)
    (check_private_metadata_privilege :
       MetadataStorage -> ResolveInfo -> result unit)
    (_filter_metadata :
       gmap string string -> option (list string) -> gmap string string)
    (root : models.Checkout) (info : ResolveInfo)
    (key : string) (keys : option (list string)) :
  let metafield :=
    resolve_private_metafield CheckoutMetadataByCheckoutIdLoader
      check_private_metadata_privilege root info key in
  let metafields :=
    resolve_private_metafields CheckoutMetadataByCheckoutIdLoader
      check_private_metadata_privilege _filter_metadata root info keys in
  match CheckoutMetadataByCheckoutIdLoader (context info)
          (models.pk_of_checkout root) with
  | None => metafield = Ok EmptyDict /\ metafields = Ok ∅
  | Some storage =>
      match check_private_metadata_privilege storage info with
      | Raise e => metafield = Raise e /\ metafields = Raise e
      | Ok _ =>
          metafield = Ok (Value (private_metadata storage !! key))
          /\ metafields
             = Ok (_filter_metadata (private_metadata storage) keys)
      end
  end.
Proof.
  intros metafield metafields. subst metafield metafields.
  unfold resolve_private_metafield, resolve_private_metafields, load.
  rewrite !then_Ok.
  destruct (CheckoutMetadataByCheckoutIdLoader _ _) as [storage|];
    [|split; reflexivity].
  destruct (check_private_metadata_privilege storage info) as [[]|e];
    split; reflexivity.
Qed.

(** X15: [resolve_metafield] and [resolve_metafields] read the public
    metadata only: two metadata loaders that hold the same public metadata
    for the checkout give the same answers, whatever the private metadata. *)
Theorem metafields_read_public_metadata_only
    (loader loader' : SaleorContext -> Z -> option MetadataStorage)
    (_filter_metadata :
       gmap string string -> option (list string) -> gmap string string)
    (root : models.Checkout) (info : ResolveInfo)
    (key : string) (keys : option (list string))
    (Hpublic :
       option_map metadata (loader (context info) (models.pk_of_checkout root))
       = option_map metadata
           (loader' (context info) (models.pk_of_checkout root))) :
  resolve_metafield loader root info key
  = resolve_metafield loader' root info key
  /\ resolve_metafields loader _filter_metadata root info keys
     = resolve_metafields loader' _filter_metadata root info keys.
Proof.
  unfold resolve_metafield, resolve_metafields, load. rewrite !then_Ok.
  destruct (loader _ _) as [storage|], (loader' _ _) as [storage'|];
    simpl in Hpublic; try discriminate; [|split; reflexivity].
  injection Hpublic as ->. split; reflexivity.
Qed.

(** *** The properties at work on the example shop *)

Lemma example_quantities_nonnegative :
  Forall (fun line_info => 0 <= models.quantity (line line_info))
         Examples.lines.
Proof. repeat constructor; simpl; lia. Defined.

Lemma resolve_quantity_bounds_witness :
  exists total,
    Checkout.resolve_quantity Examples.root Examples.info = Ok total
    /\ 0 <= total.
Proof.
  destruct (resolve_quantity_bounds Examples.root Examples.info
              example_quantities_nonnegative)
    as (total & Htotal & Hnonneg & _).
  exists total. split; assumption.
Defined.

Lemma total_balance_ignores_transaction_order_witness :
  Checkout.resolve_total_balance Examples.calculations Examples.root
    (with_transactions Examples.info FieldExamples.reordered)
  = Checkout.resolve_total_balance Examples.calculations Examples.root
      Examples.info.
Proof.
  apply (total_balance_ignores_transaction_order
           Examples.calculations Examples.root Examples.info
           FieldExamples.reordered).
  intros key. symmetry. apply Permutation_rev.
Defined.

Lemma total_balance_rejects_foreign_currency_witness :
  Checkout.resolve_total_balance Examples.calculations Examples.root
    (with_transactions Examples.info FieldExamples.foreign)
  = Raise ValueError.
Proof.
  exact (total_balance_rejects_foreign_currency
           Examples.calculations Examples.root
           (with_transactions Examples.info FieldExamples.foreign)
           (Some (mkAddress 3 "US")) Examples.lines Examples.checkout_info
           Examples.manager (Examples.taxed 0 1150)
           eq_refl eq_refl eq_refl eq_refl).
Defined.

Lemma total_balance_bounded_by_charged_witness :
  exists balance,
    Checkout.resolve_total_balance
      Examples.calculations Examples.root Examples.info
    = Ok balance
    /\ amount balance <= 850.
Proof.
  destruct (total_balance_bounded_by_charged
              Examples.calculations Examples.root Examples.info
              (Some (mkAddress 3 "US")) Examples.lines Examples.checkout_info
              Examples.manager (Examples.taxed 0 1150)
              eq_refl eq_refl eq_refl in_currency_example)
    as (balance & Hbalance & _ & Hbound & _).
  exists balance. split; assumption.
Defined.

Lemma euro_is_not_dollar : "EUR" <> "USD".
Proof. discriminate. Defined.

Lemma total_price_propagates_failures_witness :
  Checkout.resolve_total_price
    FieldExamples.failing_calculations Examples.root Examples.info
  = Raise AttributeError
  /\ Checkout.resolve_total_price
       FieldExamples.euro_calculations Examples.root Examples.info
     = Raise ValueError.
Proof.
  split.
  - exact (proj1 (total_price_propagates_failures
                    FieldExamples.failing_calculations Examples.root
                    Examples.info (Some (mkAddress 3 "US")) Examples.lines
                    Examples.checkout_info Examples.manager eq_refl eq_refl)
                 AttributeError eq_refl).
  - exact (proj2 (total_price_propagates_failures
                    FieldExamples.euro_calculations Examples.root
                    Examples.info (Some (mkAddress 3 "US")) Examples.lines
                    Examples.checkout_info Examples.manager eq_refl eq_refl)
                 (mkTaxedMoney (mkMoney 100 "EUR") (mkMoney 123 "EUR"))
                 eq_refl euro_is_not_dollar).
Defined.

Lemma line_prices_fail_without_checkout_witness :
  CheckoutLine.resolve_undiscounted_unit_price
    Examples.calculations Examples.line1 FieldExamples.no_checkout_info
  = Raise AttributeError
  /\ CheckoutLine.resolve_unit_price
       Examples.calculations Examples.line1 FieldExamples.no_checkout_info
     = Raise AttributeError.
Proof.
  destruct (line_prices_fail_without_checkout
              Examples.calculations Examples.line1
              FieldExamples.no_checkout_info eq_refl)
    as (Hunit & _ & Htaxed).
  split; [exact Hunit|]. exact (proj1 (Htaxed eq_refl)).
Defined.

Lemma undiscounted_line_prices_present_witness :
  (exists price,
     CheckoutLine.resolve_undiscounted_unit_price
       Examples.calculations Examples.line1 Examples.info
     = Ok (Some price))
  /\ (exists price,
        CheckoutLine.resolve_undiscounted_total_price
          Examples.calculations Examples.line1 Examples.info
        = Ok (Some price)).
Proof.
  apply (undiscounted_line_prices_present
           Examples.calculations Examples.line1 Examples.info Examples.root
           (mkCheckoutLineInfo Examples.line1 201)
           eq_refl (or_introl eq_refl) eq_refl).
  - intros candidate _ _. eexists. reflexivity.
  - intros candidate _ _. eexists. reflexivity.
Defined.

Lemma is_shipping_required_iff_some_line_witness :
  resolve_is_shipping_required FieldExamples.ProductTypeByProductIdLoader
    Examples.root Examples.info
  = Ok true
  /\ resolve_is_shipping_required FieldExamples.ProductTypeByProductIdLoader
       Examples.no_address Examples.info
     = Ok false.
Proof.
  split.
  - destruct (is_shipping_required_iff_some_line
                FieldExamples.ProductTypeByProductIdLoader
                Examples.root Examples.info)
      as (answer & Hanswer & Hiff & _).
    rewrite Hanswer. f_equal. apply Hiff.
    exists (mkCheckoutLineInfo Examples.line1 201).
    split; [left; reflexivity|reflexivity].
  - destruct (is_shipping_required_iff_some_line
                FieldExamples.ProductTypeByProductIdLoader
                Examples.no_address Examples.info)
      as (answer & Hanswer & _ & Hempty).
    rewrite Hanswer. f_equal. apply Hempty. reflexivity.
Defined.

Lemma checkout_requires_shipping_iff_a_line_does_witness :
  resolve_is_shipping_required FieldExamples.ProductTypeByProductIdLoader
    Examples.root Examples.info
  = Ok true.
Proof.
  apply (checkout_requires_shipping_iff_a_line_does
           FieldExamples.ProductTypeByProductIdLoader
           FieldExamples.ProductTypeByVariantIdLoader
           Examples.root Examples.info).
  - intros line_info [<-|[<-|[]]]; reflexivity.
  - exists (mkCheckoutLineInfo Examples.line1 201).
    split; [left; reflexivity|reflexivity].
Defined.

Lemma shipping_method_is_delivery_method_witness :
  resolve_shipping_method FieldExamples.delivery_method
    Examples.root Examples.info
  = Ok (Some (mkShippingMethodData 1 "DHL"))
  /\ resolve_shipping_method FieldExamples.collect_in_store
       Examples.root Examples.info
     = Ok None.
Proof.
  split.
  - apply (proj1 (shipping_method_is_delivery_method
                    FieldExamples.delivery_method Examples.root Examples.info)).
    reflexivity.
  - destruct (shipping_method_is_delivery_method
                FieldExamples.collect_in_store Examples.root Examples.info)
      as (_ & Htyped & _).
    apply (Htyped (WarehouseInstance (mkWarehouse 4 "Depot")) eq_refl).
    reflexivity.
Defined.

Lemma stock_reservation_expires_is_oldest_witness :
  (exists oldest,
     resolve_stock_reservation_expires
       FieldExamples.StocksReservationsByCheckoutTokenLoader
       bool bool (fun site => site) FieldExamples.get_site_promise
       (fun enabled => enabled) Examples.root Examples.info
     = Ok (Some oldest)
     /\ Forall (fun reservation => oldest <= reserved_until reservation)
          [ mkReservation 1700; mkReservation 1500; mkReservation 1900 ])
  /\ resolve_stock_reservation_expires
       FieldExamples.StocksReservationsByCheckoutTokenLoader
       bool bool (fun site => site) FieldExamples.get_site_promise
       (fun enabled => enabled) Examples.no_address Examples.info
     = Ok None.
Proof.
  split.
  - destruct (stock_reservation_expires_is_oldest
                FieldExamples.StocksReservationsByCheckoutTokenLoader
                bool bool (fun site => site) FieldExamples.get_site_promise
                (fun enabled => enabled) Examples.root Examples.info true
                eq_refl)
      as (_ & _ & Holdest).
    destruct (Holdest eq_refl ltac:(discriminate))
      as (oldest & Hexpires & _ & Hall).
    exists oldest. split; [exact Hexpires|exact Hall].
  - destruct (stock_reservation_expires_is_oldest
                FieldExamples.StocksReservationsByCheckoutTokenLoader
                bool bool (fun site => site) FieldExamples.get_site_promise
                (fun enabled => enabled) Examples.no_address Examples.info true
                eq_refl)
      as (_ & Hnone & _).
    exact (Hnone eq_refl).
Defined.

Lemma display_gross_prices_first_exception_witness :
  resolve_display_gross_prices FieldExamples.TaxConfigurationByChannelId
    FieldExamples.TaxConfigurationPerCountryByTaxConfigurationIDLoader
    FieldExamples.get_country FieldExamples.get_display_gross_prices
    Examples.root Examples.info
  = Ok false.
Proof.
  exact (display_gross_prices_first_exception
           FieldExamples.TaxConfigurationByChannelId
           FieldExamples.TaxConfigurationPerCountryByTaxConfigurationIDLoader
           FieldExamples.get_country FieldExamples.get_display_gross_prices
           Examples.root Examples.info).
Defined.

Lemma private_metafields_need_privilege_witness :
  resolve_private_metafield FieldExamples.CheckoutMetadataByCheckoutIdLoader
    FieldExamples.refuse Examples.root Examples.info "note"
  = Raise AttributeError
  /\ resolve_private_metafield FieldExamples.CheckoutMetadataByCheckoutIdLoader
       FieldExamples.refuse Examples.no_address Examples.info "note"
     = Ok EmptyDict.
Proof.
  split.
  - exact (proj1 (private_metafields_need_privilege
                    FieldExamples.CheckoutMetadataByCheckoutIdLoader
                    FieldExamples.refuse FieldExamples.keep_all
                    Examples.root Examples.info "note" None)).
  - exact (proj1 (private_metafields_need_privilege
                    FieldExamples.CheckoutMetadataByCheckoutIdLoader
                    FieldExamples.refuse FieldExamples.keep_all
                    Examples.no_address Examples.info "note" None)).
Defined.

Lemma metafields_read_public_metadata_only_witness :
  resolve_metafield FieldExamples.CheckoutMetadataByCheckoutIdLoader
    Examples.root Examples.info "note"
  = resolve_metafield FieldExamples.CheckoutMetadataByCheckoutIdLoader'
      Examples.root Examples.info "note".
Proof.
  exact (proj1 (metafields_read_public_metadata_only
                  FieldExamples.CheckoutMetadataByCheckoutIdLoader
                  FieldExamples.CheckoutMetadataByCheckoutIdLoader'
                  FieldExamples.keep_all Examples.root Examples.info
                  "note" None eq_refl)).
Defined.

(** *** The guard *)

(** X16: while a synchronous event is served, each of the eight resolvers
    decorated with [prevent_sync_event_circular_query] fails with
    [CircularSubscriptionSyncEvent] whatever the loaders hold and whatever
    the calculations would answer; in particular a line price resolver does
    so even when the line's checkout is not loaded. *)
Theorem guarded_resolvers_never_run_in_sync_event
    (calculations : Calculations) (info : ResolveInfo)
    (line_root : models.CheckoutLine) (root : models.Checkout)
    (Hsync : sync_event (context info) = true) :
  CheckoutLine.resolve_unit_price calculations line_root info
  = Raise CircularSubscriptionSyncEvent
  /\ CheckoutLine.resolve_total_price calculations line_root info
     = Raise CircularSubscriptionSyncEvent
  /\ Checkout.resolve_total_price calculations root info
     = Raise CircularSubscriptionSyncEvent
  /\ Checkout.resolve_subtotal_price calculations root info
     = Raise CircularSubscriptionSyncEvent
  /\ Checkout.resolve_shipping_price calculations root info
     = Raise CircularSubscriptionSyncEvent
  /\ Checkout.resolve_shipping_methods root info
     = Raise CircularSubscriptionSyncEvent
  /\ Checkout.resolve_available_shipping_methods root info
     = Raise CircularSubscriptionSyncEvent
  /\ Checkout.resolve_available_payment_gateways root info
     = Raise CircularSubscriptionSyncEvent.
Proof.
  destruct (guarded_resolvers_refuse_sync_event calculations info Hsync)
    as (H1 & H2 & H3 & H4 & H5 & H6 & H7 & H8).
  repeat split; auto.
Qed.

Lemma guarded_resolvers_never_run_in_sync_event_witness :
  CheckoutLine.resolve_unit_price
    Examples.calculations Examples.line1 Examples.sync_info
  = Raise CircularSubscriptionSyncEvent
  /\ Checkout.resolve_available_payment_gateways
       Examples.root Examples.sync_info
     = Raise CircularSubscriptionSyncEvent.
Proof.
  destruct (guarded_resolvers_never_run_in_sync_event
              Examples.calculations Examples.sync_info
              Examples.line1 Examples.root eq_refl)
    as (Hunit & _ & _ & _ & _ & _ & _ & Hgateways).
  split; assumption.
Defined.

End CheckoutFieldsProofs.
